(** * Lifecycle supervisor scripts: [ollama_setup.py] and [webui_setup.py]

    A shallow embedding of the two asyncio scripts.  Both scripts are
    sequential (one task, every [await] is awaited in place), so each
    coroutine becomes a computation in a state-and-exception monad over a
    [World]: the record of what the script has done so far (how many
    answers it has consumed from every external collaborator, the content
    of the [.env] file, and the chronological trace of its effects).  What
    the outside answers is an [Env] of oracles, one per collaborator,
    indexed by the number of calls made so far; theorems quantify over
    every [Env].

    [while] loops take a fuel argument and yield [OutOfFuel] when it runs
    out; [for] loops recurse on their range or list.

    What the model leaves out: [print] and [asyncio.sleep] always return
    (no cancellation); [ngrok.set_auth_token] and the construction of the
    pyngrok configuration do not raise, and the log callback that appends
    to [ngrok.log] is not traced; the curl commands run through
    [os.system] do not touch the [.env] file and their exit status is
    ignored, as in the source; writing [.env] succeeds; files are read and
    written as on POSIX.  The readings of [time.time()] are floats, taken
    here as the rational numbers they denote; the float subtraction of
    two readings is the exact difference rounded, see [env_round].  The
    output of [lsof] is taken after its decoding, see [lsof_outcome]. *)

From Stdlib Require Import List String Ascii ZArith QArith Qround Lia Lqa Bool Arith DecimalString.
Import ListNotations.
Local Close Scope Q_scope.
Local Open Scope string_scope.

(** ** Python exceptions that the scripts can meet *)

Inductive exn : Type :=
| RequestException   (* requests.exceptions.RequestException and subclasses *)
| ValueError         (* response.json() on a bad body, int() on a bad field *)
| PyngrokError       (* ngrok.connect / ngrok.disconnect *)
| ClientError        (* aiohttp *)
| OSError            (* subprocess creation, os.kill, open() *)
| FileNotFoundError. (* open(".env", "r") on a missing file *)

(** [except requests.exceptions.RequestException] *)
Definition is_request_exception (e : exn) : bool :=
  match e with RequestException => true | _ => false end.

(** [except Exception]: every exception above derives from [Exception]. *)
Definition is_exception (_ : exn) : bool := true.

(** ** Effects and log lines *)

(** One constructor per [print] call of the two scripts. *)
Inductive log : Type :=
(* webui_setup.py *)
| LogWaitingBackend (url : string)
| LogBackendUp
| LogBackendNotReady
| LogWatchdogStart (public_url : string)
| LogTunnelMissing (public_url : string)
| LogUnexpectedStatus (status : Z) (public_url : string)
| LogWatchdogError (e : exn)
| LogTokenNotSet
| LogTunnelEstablished (public_url : string)
| LogAttemptFailed (attempt : nat) (e : exn)
| LogTunnelFailed
| LogExitNoTunnel
| LogPublicUrl (public_url : string)
| LogSkipCurl
| LogReconnecting
| LogDisconnectFailed (e : exn)
| LogCouldNotRecreate
(* ollama_setup.py *)
| LogServiceActive
| LogServiceStopped
| LogSystemdFailed (e : exn)
| LogPkillDone
| LogPkillFailed (e : exn)
| LogKilling (port : Z) (pid : string)
| LogKillFailed (port : Z) (e : exn)
| LogServerReady (port : Z)
| LogServerWaiting (port : Z)
| LogServerNotReady (timeout : Z)
| LogCheckingPort
| LogPortStillOccupied
| LogPortFree
| LogStarting
| LogServeIssued
| LogExecuting (cmd : list string)
| LogOutput (text : string)
| LogSkipCommands.

Inductive event : Type :=
| EvPrint (l : log)
| EvSleep (seconds : Z)                   (* await asyncio.sleep(seconds) *)
| EvGet (url : string)                    (* requests.get(url, ...) *)
| EvSetAuthToken (token : string)         (* ngrok.set_auth_token *)
| EvConnect (port : Z)                    (* ngrok.connect(port, "http", ...) *)
| EvDisconnect (public_url : string)      (* ngrok.disconnect(public_url) *)
| EvReadFile (path : string)              (* open(path, "r").readlines() *)
| EvWriteFile (path : string) (content : string)
| EvSystem (cmd : string)                 (* os.system(cmd) *)
| EvSessionGet (url : string)             (* aiohttp session.get(url) *)
| EvPortProbe (port : Z)                  (* socket connect_ex(('localhost', port)) *)
| EvExec (argv : list string)             (* asyncio.create_subprocess_exec on argv *)
| EvKill (pid : Z)                        (* os.kill(pid, signal.SIGKILL) *)
| EvShell (cmd : string).                 (* asyncio.create_subprocess_shell(cmd) *)

(** ** The outside world *)

(** The collaborators that are asked for an answer. *)
Inductive channel : Type :=
| ChHttp | ChClock | ChConnect | ChDisconnect
| ChSession | ChPort | ChLsof | ChKill | ChExec.

Definition channel_eqb (a b : channel) : bool :=
  match a, b with
  | ChHttp, ChHttp | ChClock, ChClock | ChConnect, ChConnect
  | ChDisconnect, ChDisconnect | ChSession, ChSession | ChPort, ChPort
  | ChLsof, ChLsof | ChKill, ChKill | ChExec, ChExec => true
  | _, _ => false
  end.

(** A [requests] response: the status code and what
    [[t['public_url'] for t in response.json().get('tunnels', [])]]
    evaluates to ([None]: that expression raises). *)
Record response : Type := mkResponse {
  status_code : Z;
  tunnel_urls : option (list string)
}.

(** A finished subprocess: return code, captured stdout and stderr. *)
Record completed : Type := mkCompleted {
  returncode : Z;
  proc_stdout : string;
  proc_stderr : string
}.

(** The pyngrok tunnel object; only [public_url] is read. *)
Record tunnel : Type := mkTunnel { public_url : string }.

(** What [lsof -t -i:port] gave.  [LsofFields fs] stands for the captured
    stdout: [fs = []] is an empty stdout (falsy in [if stdout:]); otherwise
    [fs] lists the elements of [stdout.decode().strip().split('\n')], each
    with the value of [int(pid)] ([None] when [int] raises). *)
Inductive lsof_outcome : Type :=
| LsofRaises (e : exn)
| LsofFields (fields : list (string * option Z)).

(** [env_round] is the rounding of the machine's float arithmetic: the
    float [a - b] is [env_round (a - b)].  All that is assumed of it is
    [env_round_int]: an integer that the exact value reaches is reached by
    the rounded value too (rounding to nearest is monotone, and integers
    of the size of a timeout in seconds are floats). *)
Record Env : Type := mkEnv {
  env_token : option string;             (* os.getenv('NGROK_AUTHTOKEN') *)
  env_http : nat -> exn + response;      (* n-th requests.get *)
  env_clock : nat -> Q;                  (* n-th time.time(), in seconds *)
  env_round : Q -> Q;                    (* rounding of a float result *)
  env_round_int : forall (n : Z) (x : Q),
    (inject_Z n <= x)%Q -> (inject_Z n <= env_round x)%Q;
  env_connect : nat -> exn + tunnel;     (* n-th ngrok.connect *)
  env_disconnect : nat -> option exn;    (* n-th ngrok.disconnect: Some e raises *)
  env_session : nat -> exn + Z;          (* n-th session.get: status or raise *)
  env_port : nat -> bool;                (* n-th connect_ex(...) != 0 *)
  env_lsof : nat -> lsof_outcome;        (* n-th lsof run *)
  env_kill : nat -> option exn;          (* n-th os.kill: Some e raises *)
  env_exec : nat -> exn + completed      (* n-th other create_subprocess_exec *)
}.

(** Arithmetic without rounding error. *)
Definition exact (x : Q) : Q := x.

Definition exact_int (n : Z) (x : Q) (H : (inject_Z n <= x)%Q) :
  (inject_Z n <= exact x)%Q := H.

Record World : Type := mkWorld {
  w_count : channel -> nat;     (* answers consumed so far, per collaborator *)
  w_envfile : option string;    (* content of ".env"; None: no such file *)
  w_trace : list event          (* effects so far, oldest first *)
}.

Definition initial_world (envfile : option string) : World :=
  mkWorld (fun _ => 0) envfile [].

(** ** The monad *)

Inductive outcome (A : Type) : Type :=
| Ret (a : A)        (* the coroutine returned a *)
| Raise (e : exn)    (* an exception left the coroutine *)
| OutOfFuel.         (* a while loop was still running *)
Arguments Ret {A} a.
Arguments Raise {A} e.
Arguments OutOfFuel {A}.

Definition M (A : Type) : Type := World -> outcome A * World.

Definition ret {A} (a : A) : M A := fun w => (Ret a, w).

Definition bind {A B} (m : M A) (k : A -> M B) : M B :=
  fun w =>
    match m w with
    | (Ret a, w') => k a w'
    | (Raise e, w') => (Raise e, w')
    | (OutOfFuel, w') => (OutOfFuel, w')
    end.

Definition raise {A} (e : exn) : M A := fun w => (Raise e, w).

Definition out_of_fuel {A} : M A := fun w => (OutOfFuel, w).

(** [try: body  except <class> as e: handler e] *)
Definition try_except {A} (catches : exn -> bool) (body : M A)
           (handler : exn -> M A) : M A :=
  fun w =>
    match body w with
    | (Raise e, w') =>
        if catches e then handler e w' else (Raise e, w')
    | r => r
    end.

Declare Scope monad_scope.
Delimit Scope monad_scope with monad.
Notation "x <- m ;; k" := (bind m (fun x => k))
  (at level 61, m at next level, right associativity) : monad_scope.
Notation "m ;; k" := (bind m (fun _ => k))
  (at level 61, right associativity) : monad_scope.
Local Open Scope monad_scope.

(** ** Primitive effects *)

Definition emit (e : event) : M unit :=
  fun w => (Ret tt, mkWorld (w_count w) (w_envfile w) (w_trace w ++ [e])).

Definition print (l : log) : M unit := emit (EvPrint l).

Definition sleep (seconds : Z) : M unit := emit (EvSleep seconds).

(** The number of answers already taken from [c], and one more taken. *)
Definition tick (c : channel) : M nat :=
  fun w =>
    let n := w_count w c in
    (Ret n,
     mkWorld (fun c' => if channel_eqb c c' then S n else w_count w c')
             (w_envfile w) (w_trace w)).

Definition of_sum {A} (r : exn + A) : M A :=
  match r with inl e => raise e | inr a => ret a end.

Definition of_option_exn (r : option exn) : M unit :=
  match r with Some e => raise e | None => ret tt end.

Section Primitives.
Variable env : Env.

Definition requests_get (url : string) : M response :=
  n <- tick ChHttp ;; emit (EvGet url) ;; of_sum (env_http env n).

(** [[t['public_url'] for t in response.json().get('tunnels', [])]] *)
Definition active_urls_of (r : response) : M (list string) :=
  match tunnel_urls r with Some urls => ret urls | None => raise ValueError end.

Definition time_time : M Q :=
  n <- tick ChClock ;; ret (env_clock env n).

(** The float [a - b]. *)
Definition float_sub (a b : Q) : Q := env_round env (a - b).

Definition os_getenv_token : M (option string) := ret (env_token env).

Definition ngrok_connect (port : Z) : M tunnel :=
  n <- tick ChConnect ;; emit (EvConnect port) ;; of_sum (env_connect env n).

Definition ngrok_disconnect (url : string) : M unit :=
  n <- tick ChDisconnect ;; emit (EvDisconnect url) ;;
  of_option_exn (env_disconnect env n).

Definition session_get (url : string) : M Z :=
  n <- tick ChSession ;; emit (EvSessionGet url) ;; of_sum (env_session env n).

Definition connect_ex_fails (port : Z) : M bool :=
  n <- tick ChPort ;; emit (EvPortProbe port) ;; ret (env_port env n).

Definition run_lsof (argv : list string) : M (list (string * option Z)) :=
  n <- tick ChLsof ;; emit (EvExec argv) ;;
  match env_lsof env n with
  | LsofRaises e => raise e
  | LsofFields fs => ret fs
  end.

Definition os_kill (pid : Z) : M unit :=
  n <- tick ChKill ;; emit (EvKill pid) ;; of_option_exn (env_kill env n).

(** [create_subprocess_exec] on argv followed by [wait()] or
    [communicate()] on the process. *)
Definition subprocess_exec (argv : list string) : M completed :=
  n <- tick ChExec ;; emit (EvExec argv) ;; of_sum (env_exec env n).

End Primitives.

(** ** Text files, as Python's text mode sees them *)

Definition LF : ascii := "010"%char.
Definition CR : ascii := "013"%char.

(** Reading in text mode with the default [newline=None]: CR LF and a
    lone CR both arrive as LF.  [after_cr] tells that the previous
    character was a CR (already delivered as LF). *)
Fixpoint universal_newlines (after_cr : bool) (s : string) : string :=
  match s with
  | EmptyString => EmptyString
  | String c rest =>
      if Ascii.eqb c CR then String LF (universal_newlines true rest)
      else if Ascii.eqb c LF then
        if after_cr then universal_newlines false rest
        else String LF (universal_newlines false rest)
      else String c (universal_newlines false rest)
  end.

(** Cutting a text after each LF, the LF kept with its line; a last line
    without LF is kept as it is. *)
Fixpoint split_keepends (s : string) : list string :=
  match s with
  | EmptyString => []
  | String c rest =>
      if Ascii.eqb c LF then String c EmptyString :: split_keepends rest
      else match split_keepends rest with
           | [] => [String c EmptyString]
           | l :: ls => String c l :: ls
           end
  end.

(** [file.readlines()] on a file opened with mode "r". *)
Definition readlines (content : string) : list string :=
  split_keepends (universal_newlines false content).

(** [file.writelines(lines)] into a file opened with mode "w" (POSIX: LF is
    written as it is): the lines one after the other, nothing added. *)
Definition writelines (lines : list string) : string :=
  fold_right append EmptyString lines.

(** [line.startswith(p)] *)
Definition startswith (line p : string) : bool := String.prefix p line.

(** * webui_setup.py *)

Module Webui.

Definition env_path : string := ".env".
Definition tunnels_api : string := "http://127.0.0.1:4040/api/tunnels".
Definition backend_url : string := "http://localhost:8080".
Definition max_retries : nat := 5.
Definition retry_delay : Z := 5.

(** The lines that [main] writes back for [public_url] (lines 96-97 and
    114-115): every line that starts with the key dropped, the new one
    appended. *)
Definition updated_lines (lines : list string) (public_url : string) : list string :=
  filter (fun line => negb (startswith line "NGROK_URL=")) lines
  ++ ["NGROK_URL=" ++ public_url ++ String LF EmptyString].

(** The content of the file after one read-filter-append-write pass. *)
Definition updated_content (content public_url : string) : string :=
  writelines (updated_lines (readlines content) public_url).

(** [open(env_path, "r")] and [file.readlines()] *)
Definition read_env_lines : M (list string) :=
  fun w =>
    match w_envfile w with
    | None => (Raise FileNotFoundError, w)
    | Some content =>
        (Ret (readlines content),
         mkWorld (w_count w) (w_envfile w) (w_trace w ++ [EvReadFile env_path]))
    end.

(** [open(env_path, "w")] and [file.writelines(lines)] *)
Definition write_env_lines (lines : list string) : M unit :=
  fun w =>
    (Ret tt,
     mkWorld (w_count w) (Some (writelines lines))
             (w_trace w ++ [EvWriteFile env_path (writelines lines)])).

(** Lines 93-99, and again 112-117. *)
Definition update_env (public_url : string) : M unit :=
  lines <- read_env_lines ;;
  write_env_lines (updated_lines lines public_url).

Definition os_system (cmd : string) : M unit := emit (EvSystem cmd).

Section Program.
Variable env : Env.

(** [wait_for_backend]: the body of [while time.time() - start < timeout].
    A [Some b] out of the [try] block is its [return b]. *)
Fixpoint wait_for_backend_loop (fuel : nat) (url : string) (start : Q)
         (timeout : Z) : M bool :=
  match fuel with
  | O => out_of_fuel
  | S fuel' =>
      now <- time_time env ;;
      if Qlt_le_dec (float_sub env now start) (inject_Z timeout) then
        returned <-
          try_except is_request_exception
            (response <- requests_get env url ;;
             if (status_code response =? 200)%Z
             then print LogBackendUp ;; ret (Some true)
             else ret None)
            (fun _ => ret None) ;;
        match returned with
        | Some b => ret b
        | None => sleep 1 ;; wait_for_backend_loop fuel' url start timeout
        end
      else
        print LogBackendNotReady ;; ret false
  end.

Definition wait_for_backend (fuel : nat) (url : string) (timeout : Z) : M bool :=
  print (LogWaitingBackend url) ;;
  start <- time_time env ;;
  wait_for_backend_loop fuel url start timeout.

(** [ngrok_watchdog]: the body of its [while True]. *)
Fixpoint ngrok_watchdog_loop (fuel : nat) (public_url : string) : M bool :=
  match fuel with
  | O => out_of_fuel
  | S fuel' =>
      returned <-
        try_except is_exception
          (response <- requests_get env tunnels_api ;;
           active_urls <- active_urls_of response ;;
           if negb (existsb (String.eqb public_url) active_urls)
           then print (LogTunnelMissing public_url) ;; ret (Some false)
           else
             response <- requests_get env public_url ;;
             if negb (status_code response =? 200)%Z
             then print (LogUnexpectedStatus (status_code response) public_url) ;;
                  ret (Some false)
             else ret None)
          (fun e => print (LogWatchdogError e) ;; ret (Some false)) ;;
      match returned with
      | Some b => ret b
      | None => sleep 15 ;; ngrok_watchdog_loop fuel' public_url
      end
  end.

Definition ngrok_watchdog (fuel : nat) (public_url : string) : M bool :=
  print (LogWatchdogStart public_url) ;;
  ngrok_watchdog_loop fuel public_url.

(** [for attempt in range(max_retries)], with [remaining] iterations to
    go, and the code after the loop. *)
Fixpoint connect_attempts (remaining attempt : nat) : M (option tunnel) :=
  match remaining with
  | O => print LogTunnelFailed ;; ret None
  | S remaining' =>
      returned <-
        try_except is_exception
          (t <- ngrok_connect env 8080 ;;
           print (LogTunnelEstablished (public_url t)) ;;
           ret (Some t))
          (fun e =>
             print (LogAttemptFailed (attempt + 1) e) ;;
             sleep retry_delay ;;
             ret None) ;;
      match returned with
      | Some t => ret (Some t)
      | None => connect_attempts remaining' (S attempt)
      end
  end.

(** [if not ngrok_token]: [None] and the empty string are both falsy. *)
Definition token_missing (ngrok_token : option string) : bool :=
  match ngrok_token with
  | None => true
  | Some EmptyString => true
  | Some _ => false
  end.

Definition create_ngrok_tunnel : M (option tunnel) :=
  ngrok_token <- os_getenv_token env ;;
  if token_missing ngrok_token then
    print LogTokenNotSet ;; ret None
  else
    emit (EvSetAuthToken (match ngrok_token with Some t => t | None => "" end)) ;;
    connect_attempts max_retries 0.

(** The [while True] of [main] (lines 120-132); [break] is [ret tt]. *)
Fixpoint watchdog_loop (fuel : nat) (public_url : string) : M unit :=
  match fuel with
  | O => out_of_fuel
  | S fuel' =>
      tunnel_ok <- ngrok_watchdog fuel' public_url ;;
      if negb tunnel_ok then
        print LogReconnecting ;;
        try_except is_exception
          (ngrok_disconnect env public_url)
          (fun e => print (LogDisconnectFailed e)) ;;
        t <- create_ngrok_tunnel ;;
        match t with
        | None => print LogCouldNotRecreate ;; ret tt
        | Some _ => watchdog_loop fuel' public_url
        end
      else watchdog_loop fuel' public_url
  end.

Definition main (fuel : nat) : M unit :=
  backend_ready <- wait_for_backend fuel backend_url 30 ;;
  if negb backend_ready then
    print LogExitNoTunnel ;; ret tt
  else
    t <- create_ngrok_tunnel ;;
    match t with
    | None => ret tt
    | Some t =>
        let public_url := public_url t in
        update_env public_url ;;
        print (LogPublicUrl public_url) ;;
        (if backend_ready then
           os_system "curl http://localhost:11434 | pygmentize -l console || true" ;;
           os_system "curl http://localhost:8080 | pygmentize -l console || true" ;;
           os_system ("curl " ++ public_url ++ " | pygmentize -l console || true")
         else print LogSkipCurl) ;;
        update_env public_url ;;
        watchdog_loop fuel public_url
    end.

End Program.

End Webui.

(** * ollama_setup.py *)

Module Ollama.

(** [f'{port}'] *)
Definition str_of_port (port : Z) : string :=
  NilZero.string_of_int (Z.to_int port).

Definition commands : list (list string) :=
  [ ["ollama"; "list"];
    ["ollama"; "run"; "mistral"];
    ["ollama"; "run"; "deepseek-coder"];
    ["ollama"; "run"; "llava"];
    ["ollama"; "run"; "wizard-vicuna-uncensored"] ].

Definition serve_command : string := "nohup ollama serve > ollama_start.log 2>&1 &".

(** [if stdout:] / [if stderr:] followed by a [print] of the decoded text. *)
Definition print_if_nonempty (text : string) : M unit :=
  match text with
  | EmptyString => ret tt
  | _ => print (LogOutput text)
  end.

Section Program.
Variable env : Env.

Definition stop_existing_ollama : M unit :=
  try_except is_exception
    (proc <- subprocess_exec env ["systemctl"; "is-active"; "--quiet"; "ollama"] ;;
     if (returncode proc =? 0)%Z then
       print LogServiceActive ;;
       subprocess_exec env ["sudo"; "systemctl"; "stop"; "ollama"] ;;
       subprocess_exec env ["sudo"; "systemctl"; "disable"; "ollama"] ;;
       print LogServiceStopped
     else ret tt)
    (fun e => print (LogSystemdFailed e)) ;;
  try_except is_exception
    (subprocess_exec env ["pkill"; "-f"; "ollama serve"] ;;
     print LogPkillDone)
    (fun e => print (LogPkillFailed e)) ;;
  sleep 2.

(** [for pid in pids: print(...); os.kill(int(pid), signal.SIGKILL)] *)
Fixpoint kill_pids (port : Z) (pids : list (string * option Z)) : M unit :=
  match pids with
  | [] => ret tt
  | (pid, parsed) :: rest =>
      print (LogKilling port pid) ;;
      match parsed with
      | None => raise ValueError
      | Some n => os_kill env n ;; kill_pids port rest
      end
  end.

Definition kill_process_on_port (port : Z) : M unit :=
  try_except is_exception
    (pids <- run_lsof env ["lsof"; "-t"; "-i:" ++ str_of_port port] ;;
     match pids with
     | [] => ret tt
     | _ => kill_pids port pids ;; sleep 2
     end)
    (fun e => print (LogKillFailed port e)).

Definition is_port_free (port : Z) : M bool := connect_ex_fails env port.

(** [for _ in range(timeout)] with [remaining] iterations to go, and the
    code after the loop. *)
Fixpoint wait_for_server_loop (remaining : nat) (port timeout : Z) : M bool :=
  match remaining with
  | O => print (LogServerNotReady timeout) ;; ret false
  | S remaining' =>
      returned <-
        try_except is_exception
          (status <- session_get env ("http://localhost:" ++ str_of_port port ++ "/") ;;
           if (status =? 200)%Z
           then print (LogServerReady port) ;; ret (Some true)
           else ret None)
          (fun _ => ret None) ;;
      match returned with
      | Some b => ret b
      | None =>
          print (LogServerWaiting port) ;;
          sleep 1 ;;
          wait_for_server_loop remaining' port timeout
      end
  end.

Definition wait_for_server (port timeout : Z) : M bool :=
  wait_for_server_loop (Z.to_nat timeout) port timeout.

Definition start_ollama : M bool :=
  print LogCheckingPort ;;
  free <- is_port_free 11434 ;;
  (if negb free then kill_process_on_port 11434 else ret tt) ;;
  free <- is_port_free 11434 ;;
  if negb free then
    print LogPortStillOccupied ;; ret false
  else
    print LogPortFree ;;
    print LogStarting ;;
    emit (EvShell serve_command) ;;
    print LogServeIssued ;;
    wait_for_server 11434 30.

(** [for cmd in commands] *)
Fixpoint run_commands (cmds : list (list string)) : M unit :=
  match cmds with
  | [] => ret tt
  | cmd :: rest =>
      print (LogExecuting cmd) ;;
      proc <- subprocess_exec env cmd ;;
      print_if_nonempty (proc_stdout proc) ;;
      print_if_nonempty (proc_stderr proc) ;;
      run_commands rest
  end.

Definition run_ollama_commands : M unit := run_commands commands.

Definition main : M unit :=
  stop_existing_ollama ;;
  started <- start_ollama ;;
  if started then run_ollama_commands
  else print LogSkipCommands.

End Program.

End Ollama.

(** * Vocabulary of the statements *)

(** [k] repetitions of the same run of events. *)
Fixpoint times (k : nat) (evs : list event) : list event :=
  match k with
  | O => []
  | S k' => evs ++ times k' evs
  end.

(** ** Tunnel watchdog *)

(** A check cycle whose first GET is the [n]-th one finds the tunnel
    listed by the provider and reachable with status 200. *)
Definition check_passes (env : Env) (public_url : string) (n : nat) : bool :=
  match env_http env n with
  | inl _ => false
  | inr r =>
      match tunnel_urls r with
      | None => false
      | Some urls =>
          existsb (String.eqb public_url) urls &&
          match env_http env (S n) with
          | inl _ => false
          | inr r2 => (status_code r2 =? 200)%Z
          end
      end
  end.

(** The ways a check cycle can go wrong: the URL is not listed, the
    liveness probe answers with another status, or either request (or the
    decoding of the list) raises. *)
Inductive check_fails (env : Env) (public_url : string) (n : nat) : Prop :=
| fails_omitted r urls :
    env_http env n = inr r -> tunnel_urls r = Some urls ->
    ~ In public_url urls -> check_fails env public_url n
| fails_status r urls r2 :
    env_http env n = inr r -> tunnel_urls r = Some urls -> In public_url urls ->
    env_http env (S n) = inr r2 -> status_code r2 <> 200%Z ->
    check_fails env public_url n
| fails_list_error e :
    env_http env n = inl e -> check_fails env public_url n
| fails_list_body r :
    env_http env n = inr r -> tunnel_urls r = None ->
    check_fails env public_url n
| fails_probe_error r urls e :
    env_http env n = inr r -> tunnel_urls r = Some urls -> In public_url urls ->
    env_http env (S n) = inl e -> check_fails env public_url n.

(** What one passing check cycle does, and [k] of them in a row. *)
Definition passing_cycle (public_url : string) : list event :=
  [EvGet Webui.tunnels_api; EvGet public_url; EvSleep 15].

Definition passing_cycles (k : nat) (public_url : string) : list event :=
  times k (passing_cycle public_url).

Definition is_sleep (e : event) : bool :=
  match e with EvSleep _ => true | _ => false end.

(** The world right after the first line of [ngrok_watchdog]. *)
Definition watchdog_started (w : World) (public_url : string) : World :=
  mkWorld (w_count w) (w_envfile w)
          (w_trace w ++ [EvPrint (LogWatchdogStart public_url)]).

(** ** Tunnel establishment *)

(** The [n]-th [ngrok.connect] raises, and what it raises. *)
Definition connect_fails (env : Env) (n : nat) : bool :=
  match env_connect env n with inl _ => true | inr _ => false end.

Definition connect_error (env : Env) (n : nat) : exn :=
  match env_connect env n with inl e => e | inr _ => PyngrokError end.

(** [k] failed attempts in a row: the connect call, the logged failure and
    the wait.  The first of them is the [n]-th connect call and the loop's
    [attempt] variable starts at [attempt]. *)
Fixpoint failed_attempts (env : Env) (k n attempt : nat) : list event :=
  match k with
  | O => []
  | S k' =>
      [EvConnect 8080;
       EvPrint (LogAttemptFailed (attempt + 1) (connect_error env n));
       EvSleep Webui.retry_delay]
      ++ failed_attempts env k' (S n) (S attempt)
  end.

(** The world right after [ngrok.set_auth_token(ngrok_token)]. *)
Definition token_set (w : World) (token : string) : World :=
  mkWorld (w_count w) (w_envfile w) (w_trace w ++ [EvSetAuthToken token]).

(** ** Readiness polling *)

(** The [n]-th [requests.get] answers 200; it answers something that
    [wait_for_backend] retries after (another status, or a
    [RequestException]). *)
Definition backend_ready (env : Env) (n : nat) : bool :=
  match env_http env n with
  | inr r => (status_code r =? 200)%Z
  | inl _ => false
  end.

Definition backend_retry (env : Env) (n : nat) : bool :=
  match env_http env n with
  | inr r => negb (status_code r =? 200)%Z
  | inl e => is_request_exception e
  end.

(** The float difference of the [n]-th reading of the clock and [start] is
    less than [timeout]: the test of [wait_for_backend]'s loop passes. *)
Definition in_window (env : Env) (start : Q) (timeout : Z) (n : nat) : Prop :=
  (float_sub env (env_clock env n) start < inject_Z timeout)%Q.

(** The [n]-th [session.get] answers 200; anything else (another status or
    any exception) makes [wait_for_server] retry. *)
Definition server_ready (env : Env) (n : nat) : bool :=
  match env_session env n with
  | inr status => (status =? 200)%Z
  | inl _ => false
  end.

Definition server_url (port : Z) : string :=
  "http://localhost:" ++ Ollama.str_of_port port ++ "/".

(** ** What a computation may do *)

(** [m] leaves the [.env] file alone and adds to the trace only events
    that satisfy [P], whatever its outcome. *)
Definition emits {A : Type} (P : event -> bool) (m : M A) : Prop :=
  forall w,
    w_envfile (snd (m w)) = w_envfile w
    /\ exists evs,
        w_trace (snd (m w)) = (w_trace w ++ evs)%list
        /\ forallb P evs = true.

(** ** Supervision loop of webui_setup.py *)

(** What [create_ngrok_tunnel] does to the outside. *)
Definition tunnel_event (e : event) : bool :=
  match e with
  | EvSetAuthToken _ | EvConnect _ | EvSleep _ => true
  | EvPrint LogTokenNotSet | EvPrint (LogTunnelEstablished _)
  | EvPrint (LogAttemptFailed _ _) | EvPrint LogTunnelFailed => true
  | _ => false
  end.

(** What [wait_for_backend] does to the outside. *)
Definition polling_event (e : event) : bool :=
  match e with
  | EvGet _ | EvSleep _ => true
  | EvPrint (LogWaitingBackend _) | EvPrint LogBackendUp
  | EvPrint LogBackendNotReady => true
  | _ => false
  end.

(** The event does not open the [.env] file. *)
Definition no_file_access (e : event) : bool :=
  match e with
  | EvReadFile _ | EvWriteFile _ _ => false
  | _ => true
  end.

(** Every URL that the event watches, probes or disconnects is [url0] (the
    provider's local API apart), and the event does not open the [.env]
    file. *)
Definition concerns_only (url0 : string) (e : event) : bool :=
  match e with
  | EvGet u => String.eqb u url0 || String.eqb u Webui.tunnels_api
  | EvDisconnect u => String.eqb u url0
  | EvPrint (LogWatchdogStart u) => String.eqb u url0
  | EvPrint (LogTunnelMissing u) => String.eqb u url0
  | EvPrint (LogUnexpectedStatus _ u) => String.eqb u url0
  | EvReadFile _ | EvWriteFile _ _ => false
  | _ => true
  end.

(** The world in which [main] enters its [while True]: the [.env] file
    rewritten twice for [url], the three curl commands run in between. *)
Definition loop_entry (w : World) (content url : string) : World :=
  let once := Webui.updated_content content url in
  let twice := Webui.updated_content once url in
  mkWorld (w_count w) (Some twice)
    (w_trace w ++
       [EvReadFile Webui.env_path;
        EvWriteFile Webui.env_path once;
        EvPrint (LogPublicUrl url);
        EvSystem "curl http://localhost:11434 | pygmentize -l console || true";
        EvSystem "curl http://localhost:8080 | pygmentize -l console || true";
        EvSystem ("curl " ++ url ++ " | pygmentize -l console || true")%string;
        EvReadFile Webui.env_path;
        EvWriteFile Webui.env_path twice]).

(** A run in which the tunnel is replaced once.  The backend answers at
    once; the first tunnel is [https://a.ngrok.io]; the provider's list is
    then found empty, so the watchdog reports the failure; the replacement
    tunnel is [https://b.ngrok.io], which the provider lists from then on;
    no later connect succeeds. *)
Definition replaced_once : Env :=
  mkEnv (Some "token")
    (fun n => match n with
              | 0 => inr (mkResponse 200 None)
              | 1 => inr (mkResponse 200 (Some []))
              | _ => inr (mkResponse 200 (Some ["https://b.ngrok.io"]))
              end)
    (fun _ => 0%Q)
    exact exact_int
    (fun n => match n with
              | 0 => inr (mkTunnel "https://a.ngrok.io")
              | 1 => inr (mkTunnel "https://b.ngrok.io")
              | _ => inl PyngrokError
              end)
    (fun _ => None)
    (fun _ => inl ClientError)
    (fun _ => true)
    (fun _ => LsofFields [])
    (fun _ => None)
    (fun _ => inl OSError).

Definition newline : string := String LF EmptyString.

Definition is_write (e : event) : bool :=
  match e with EvWriteFile _ _ => true | _ => false end.

(** The world after [print("Reconnecting tunnel...")] and the guarded
    [ngrok.disconnect(public_url)] of the loop of [main]. *)
Definition disconnected (env : Env) (w : World) (public_url : string) : World :=
  snd ((print LogReconnecting ;;
        try_except is_exception
          (ngrok_disconnect env public_url)
          (fun e => print (LogDisconnectFailed e)))%monad w).

Definition is_established (e : event) : bool :=
  match e with EvPrint (LogTunnelEstablished _) => true | _ => false end.

Definition is_watchdog_start (e : event) : bool :=
  match e with EvPrint (LogWatchdogStart _) => true | _ => false end.

(** ** The [.env] file *)

(** A line for the key, as [main] recognises it, and the line that it
    writes for [url]. *)
Definition is_key_line (line : string) : bool := startswith line "NGROK_URL=".

Definition key_line (url : string) : string := "NGROK_URL=" ++ url ++ newline.

Definition other_lines (lines : list string) : list string :=
  filter (fun line => negb (is_key_line line)) lines.

(** The text holds no CR and no LF. *)
Fixpoint no_line_break (s : string) : bool :=
  match s with
  | EmptyString => true
  | String c rest =>
      negb (Ascii.eqb c CR) && negb (Ascii.eqb c LF) && no_line_break rest
  end.

(** The text holds no CR. *)
Fixpoint no_cr (s : string) : bool :=
  match s with
  | EmptyString => true
  | String c rest => negb (Ascii.eqb c CR) && no_cr rest
  end.

(** The line ends with LF. *)
Fixpoint terminated (line : string) : bool :=
  match line with
  | EmptyString => false
  | String c EmptyString => Ascii.eqb c LF
  | String _ rest => terminated rest
  end.

(** The line is a run of characters other than CR and LF, closed by one
    LF. *)
Fixpoint proper_line (line : string) : bool :=
  match line with
  | EmptyString => false
  | String c rest =>
      if Ascii.eqb c LF then
        match rest with EmptyString => true | _ => false end
      else negb (Ascii.eqb c CR) && proper_line rest
  end.

(** ** Port remediation of ollama_setup.py *)

Definition lsof_argv (port : Z) : list string :=
  ["lsof"; "-t"; "-i:" ++ Ollama.str_of_port port].

(** Every listed field is a number and every [os.kill] goes through; the
    first kill is the [n]-th one. *)
Fixpoint kills_succeed (env : Env) (pids : list (string * option Z)) (n : nat) : bool :=
  match pids with
  | [] => true
  | (_, None) :: _ => false
  | (_, Some _) :: rest =>
      match env_kill env n with
      | None => kills_succeed env rest (S n)
      | Some _ => false
      end
  end.

(** The announcements and kills of a pass that goes through. *)
Fixpoint kill_events (port : Z) (pids : list (string * option Z)) : list event :=
  match pids with
  | [] => []
  | (pid, Some n) :: rest =>
      EvPrint (LogKilling port pid) :: EvKill n :: kill_events port rest
  | (pid, None) :: rest =>
      EvPrint (LogKilling port pid) :: kill_events port rest
  end.

(** What the [n]-th [lsof] run lists ([[]] when it raises). *)
Definition listed_pids (env : Env) (n : nat) : list (string * option Z) :=
  match env_lsof env n with
  | LsofFields pids => pids
  | LsofRaises _ => []
  end.

(** The remediation pass started in [w] lists at least one process and
    kills all of them. *)
Definition remediation_clean (env : Env) (w : World) : bool :=
  match env_lsof env (w_count w ChLsof) with
  | LsofFields (p :: ps) => kills_succeed env (p :: ps) (w_count w ChKill)
  | _ => false
  end.

(** What a remediation pass may do after its [lsof] run. *)
Definition remediation_event (e : event) : bool :=
  match e with
  | EvPrint (LogKilling _ _) | EvPrint (LogKillFailed _ _)
  | EvKill _ | EvSleep _ => true
  | _ => false
  end.

Definition is_kill (e : event) : bool :=
  match e with EvKill _ => true | _ => false end.

(** The world after [print("Checking if port 11434 is in use...")] and the
    first [is_port_free(11434)]. *)
Definition port_checked (w : World) : World :=
  mkWorld (fun c => if channel_eqb ChPort c then S (w_count w ChPort) else w_count w c)
          (w_envfile w)
          (w_trace w ++ [EvPrint LogCheckingPort; EvPortProbe 11434]).

(** ** Post-startup commands *)

Definition surfaced (text : string) : list event :=
  match text with
  | EmptyString => []
  | _ => [EvPrint (LogOutput text)]
  end.

(** The commands [cmds] run one after the other, the first being the
    [n]-th subprocess: announced, executed, their captured output
    printed. *)
Fixpoint command_events (env : Env) (cmds : list (list string)) (n : nat) : list event :=
  match cmds with
  | [] => []
  | cmd :: rest =>
      [EvPrint (LogExecuting cmd); EvExec cmd]
      ++ match env_exec env n with
         | inr p => surfaced (proc_stdout p) ++ surfaced (proc_stderr p)
         | inl _ => []
         end
      ++ command_events env rest (S n)
  end.

(** The [n]-th subprocess runs to its end (with whatever return code). *)
Definition completes (env : Env) (n : nat) : bool :=
  match env_exec env n with inr _ => true | inl _ => false end.

(** The world right after the first two lines of [wait_for_backend]: the
    announcement is printed and [start] is read from the clock. *)
Definition backend_poll_started (w : World) (url : string) : World :=
  mkWorld (fun c => if channel_eqb ChClock c then S (w_count w ChClock) else w_count w c)
          (w_envfile w)
          (w_trace w ++ [EvPrint (LogWaitingBackend url)]).

(** ** Concrete environments *)

(** Nothing answers: no credential, every request and subprocess raises,
    the clock stands still, the port is free. *)
Definition silent : Env :=
  mkEnv None
    (fun _ => inl RequestException)
    (fun _ => 0%Q)
    exact exact_int
    (fun _ => inl PyngrokError)
    (fun _ => None)
    (fun _ => inl ClientError)
    (fun _ => true)
    (fun _ => LsofFields [])
    (fun _ => None)
    (fun _ => inl OSError).

Definition url_a : string := "https://a.ngrok.io".

(** The tunnel is listed and reachable in the first check cycle and
    missing from the provider's list in the second. *)
Definition lost_after_one_check : Env :=
  mkEnv (Some "token")
    (fun n => match n with
              | 0 => inr (mkResponse 200 (Some [url_a]))
              | 1 => inr (mkResponse 200 None)
              | _ => inr (mkResponse 200 (Some []))
              end)
    (fun _ => 0%Q)
    exact exact_int
    (fun _ => inl PyngrokError)
    (fun _ => None)
    (fun _ => inl ClientError)
    (fun _ => true)
    (fun _ => LsofFields [])
    (fun _ => None)
    (fun _ => inl OSError).

(** The provider refuses four times and then opens the tunnel. *)
Definition succeeds_on_last_attempt : Env :=
  mkEnv (Some "token")
    (fun _ => inl RequestException)
    (fun _ => 0%Q)
    exact exact_int
    (fun n => if Nat.ltb n 4 then inl PyngrokError else inr (mkTunnel url_a))
    (fun _ => None)
    (fun _ => inl ClientError)
    (fun _ => true)
    (fun _ => LsofFields [])
    (fun _ => None)
    (fun _ => inl OSError).

(** The backend never answers and each pass of the polling loop takes 31
    seconds. *)
Definition backend_down : Env :=
  mkEnv (Some "token")
    (fun _ => inl RequestException)
    (fun n => inject_Z (31 * Z.of_nat n))
    exact exact_int
    (fun _ => inl PyngrokError)
    (fun _ => None)
    (fun _ => inl ClientError)
    (fun _ => true)
    (fun _ => LsofFields [])
    (fun _ => None)
    (fun _ => inl OSError).

(** The backend answers at once, but there is no credential. *)
Definition backend_up_no_token : Env :=
  mkEnv None
    (fun _ => inr (mkResponse 200 None))
    (fun _ => 0%Q)
    exact exact_int
    (fun _ => inl PyngrokError)
    (fun _ => None)
    (fun _ => inl ClientError)
    (fun _ => true)
    (fun _ => LsofFields [])
    (fun _ => None)
    (fun _ => inl OSError).

(** The backend refuses connections and every request takes 20 seconds
    to fail: the clock reads 0 at the start and at the first test of the
    loop, and 21 seconds more at each later test. *)
Definition backend_slow : Env :=
  mkEnv (Some "token")
    (fun _ => inl RequestException)
    (fun n => inject_Z (21 * Z.of_nat (pred n)))
    exact exact_int
    (fun _ => inl PyngrokError)
    (fun _ => None)
    (fun _ => inl ClientError)
    (fun _ => true)
    (fun _ => LsofFields [])
    (fun _ => None)
    (fun _ => inl OSError).

(** Rounding to the nearest multiple of [2^-48], the spacing of the
    floats between 16 and 32. *)
Definition round48 (x : Q) : Q :=
  (inject_Z (Qfloor (x * inject_Z (2 ^ 48) + (1 # 2))) / inject_Z (2 ^ 48))%Q.

Definition round48_int (n : Z) (x : Q) :
  (inject_Z n <= x)%Q -> (inject_Z n <= round48 x)%Q.
Proof.
  intros H. unfold round48.
  assert (Hp : (0 < inject_Z (2 ^ 48))%Q) by reflexivity.
  apply Qle_shift_div_l; [exact Hp|].
  rewrite <- inject_Z_mult. rewrite <- Zle_Qle.
  rewrite <- (Qfloor_Z (n * 2 ^ 48)). apply Qfloor_resp_le.
  rewrite inject_Z_mult.
  assert (Hm : (inject_Z n * inject_Z (2 ^ 48) <= x * inject_Z (2 ^ 48))%Q)
    by (apply Qmult_le_compat_r; [exact H|now apply Qlt_le_weak]).
  lra.
Qed.

(** The backend never answers; the clock reads the float 0.7 at the start
    and the float 30.7 from the first test of the loop on.  The exact
    difference of the two floats is [3 / 2^52] short of 30; their float
    difference is 30.0. *)
Definition clock_at_window_edge : Env :=
  mkEnv (Some "token")
    (fun _ => inl RequestException)
    (fun n => match n with
              | 0 => (3152519739159347 # 4503599627370496)%Q
              | _ => (8641281785017139 # 281474976710656)%Q
              end)
    round48 round48_int
    (fun _ => inl PyngrokError)
    (fun _ => None)
    (fun _ => inl ClientError)
    (fun _ => true)
    (fun _ => LsofFields [])
    (fun _ => None)
    (fun _ => inl OSError).

(** The backend answers 503 twice and then 200; each pass of the polling
    loop takes one second. *)
Definition backend_up_at_third : Env :=
  mkEnv (Some "token")
    (fun n => if Nat.ltb n 2 then inr (mkResponse 503 None) else inr (mkResponse 200 None))
    (fun n => inject_Z (Z.of_nat (pred n)))
    exact exact_int
    (fun _ => inl PyngrokError)
    (fun _ => None)
    (fun _ => inl ClientError)
    (fun _ => true)
    (fun _ => LsofFields [])
    (fun _ => None)
    (fun _ => inl OSError).

(** Port 11434 stays occupied by process 4242, which [lsof] lists and
    [os.kill] reaches. *)
Definition port_held : Env :=
  mkEnv None
    (fun _ => inl RequestException)
    (fun _ => 0%Q)
    exact exact_int
    (fun _ => inl PyngrokError)
    (fun _ => None)
    (fun _ => inl ClientError)
    (fun _ => false)
    (fun _ => LsofFields [("4242", Some 4242%Z)])
    (fun _ => None)
    (fun _ => inl OSError).

(** Port 11434 stays occupied by a process that [lsof] does not show (it
    belongs to another user): [lsof] prints nothing. *)
Definition port_held_unlisted : Env :=
  mkEnv None
    (fun _ => inl RequestException)
    (fun _ => 0%Q)
    exact exact_int
    (fun _ => inl PyngrokError)
    (fun _ => None)
    (fun _ => inl ClientError)
    (fun _ => false)
    (fun _ => LsofFields [])
    (fun _ => None)
    (fun _ => inl OSError).

(** The port is free, the server answers 200 at the second request, and
    every subprocess ends with return code 1 and a line on stderr. *)
Definition commands_all_fail : Env :=
  mkEnv None
    (fun _ => inl RequestException)
    (fun _ => 0%Q)
    exact exact_int
    (fun _ => inl PyngrokError)
    (fun _ => None)
    (fun n => match n with 0 => inl ClientError | _ => inr 200%Z end)
    (fun _ => true)
    (fun _ => LsofFields [])
    (fun _ => None)
    (fun _ => inr (mkCompleted 1 "" "Error: could not connect")).


(** * Further vocabulary *)

(** The [n]-th [requests.get] returns a response or raises a
    [RequestException]: nothing that [wait_for_backend] lets through. *)
Definition backend_answers (env : Env) (n : nat) : bool :=
  match env_http env n with
  | inl e => is_request_exception e
  | inr _ => true
  end.

(** What [main] of webui_setup.py may do while the backend is not ready. *)
Definition before_tunnel_event (e : event) : bool :=
  match e with
  | EvPrint LogExitNoTunnel => true
  | _ => polling_event e
  end.

(** The command lines of [stop_existing_ollama]. *)
Definition is_active_argv : list string := ["systemctl"; "is-active"; "--quiet"; "ollama"].
Definition stop_argv : list string := ["sudo"; "systemctl"; "stop"; "ollama"].
Definition disable_argv : list string := ["sudo"; "systemctl"; "disable"; "ollama"].
Definition pkill_argv : list string := ["pkill"; "-f"; "ollama serve"].

(** The command lines for which a subprocess was asked, in order. *)
Definition executed (evs : list event) : list (list string) :=
  flat_map (fun e => match e with EvExec argv => [argv] | _ => [] end) evs.

(** The [n]-th subprocess ([systemctl is-active]) ends with return code 0. *)
Definition service_active (env : Env) (n : nat) : bool :=
  match env_exec env n with
  | inr p => (returncode p =? 0)%Z
  | inl _ => false
  end.

(** Neither the launch of [ollama serve], nor a request to the server. *)
Definition no_launch (e : event) : bool :=
  match e with
  | EvShell _ | EvSessionGet _ => false
  | _ => true
  end.


(** ** More concrete environments *)

(** Port 11434 is held; [lsof] lists three processes; the second [os.kill]
    is refused. *)
Definition second_kill_denied : Env :=
  mkEnv None
    (fun _ => inl RequestException)
    (fun _ => 0%Q)
    exact exact_int
    (fun _ => inl PyngrokError)
    (fun _ => None)
    (fun _ => inl ClientError)
    (fun _ => false)
    (fun _ => LsofFields [("4242", Some 4242%Z); ("4243", Some 4243%Z);
                          ("4244", Some 4244%Z)])
    (fun n => match n with 1 => Some OSError | _ => None end)
    (fun _ => inl OSError).

(** The port is free at the first check and taken at the second. *)
Definition port_taken_between_checks : Env :=
  mkEnv None
    (fun _ => inl RequestException)
    (fun _ => 0%Q)
    exact exact_int
    (fun _ => inl PyngrokError)
    (fun _ => None)
    (fun _ => inl ClientError)
    (fun n => match n with 0 => true | _ => false end)
    (fun _ => LsofFields [])
    (fun _ => None)
    (fun _ => inl OSError).

(** The third subprocess cannot be created; the others end with return
    code 0. *)
Definition third_command_cannot_start : Env :=
  mkEnv None
    (fun _ => inl RequestException)
    (fun _ => 0%Q)
    exact exact_int
    (fun _ => inl PyngrokError)
    (fun _ => None)
    (fun _ => inr 200%Z)
    (fun _ => true)
    (fun _ => LsofFields [])
    (fun _ => None)
    (fun n => match n with 2 => inl OSError | _ => inr (mkCompleted 0 "ok" "") end).


(** A world in which one GET has been answered already. *)
Definition after_one_get : World :=
  mkWorld (fun c => if channel_eqb ChHttp c then 1 else 0) None [].

(** * Proofs *)

(** Running a computation: unfold the monad and the primitives, compute. *)

Ltac munfold :=
  unfold bind, try_except, ret, raise, out_of_fuel, print, sleep, emit, tick,
    of_sum, of_option_exn, requests_get, active_urls_of, time_time,
    os_getenv_token, ngrok_connect, ngrok_disconnect, session_get,
    connect_ex_fails, run_lsof, os_kill, subprocess_exec.

Ltac mrun := repeat (munfold; cbn).


(** ** Events that a computation may add to the trace *)

Lemma emits_ret {A} P (a : A) : emits P (ret a).
Proof. intros w. split; [reflexivity|]. exists []. cbn. now rewrite app_nil_r. Qed.

Lemma emits_raise {A} P e : emits P (@raise A e).
Proof. intros w. split; [reflexivity|]. exists []. cbn. now rewrite app_nil_r. Qed.

Lemma emits_out_of_fuel {A} P : emits P (@out_of_fuel A).
Proof. intros w. split; [reflexivity|]. exists []. cbn. now rewrite app_nil_r. Qed.

Lemma emits_emit P e : P e = true -> emits P (emit e).
Proof. intros H w. split; [reflexivity|]. exists [e]. cbn. now rewrite H. Qed.

Lemma emits_tick P c : emits P (tick c).
Proof. intros w. split; [reflexivity|]. exists []. cbn. now rewrite app_nil_r. Qed.

Lemma emits_bind {A B} P (m : M A) (k : A -> M B) :
  emits P m -> (forall a, emits P (k a)) -> emits P (bind m k).
Proof.
  intros Hm Hk w. unfold bind. specialize (Hm w).
  destruct (m w) as [[a|e|] w1]; cbn in Hm; try exact Hm.
  destruct Hm as (He & evs & Ht & Hp).
  destruct (Hk a w1) as (He' & evs' & Ht' & Hp').
  split; [congruence|]. exists (evs ++ evs')%list. split.
  - rewrite Ht', Ht. now rewrite app_assoc.
  - rewrite forallb_app. now rewrite Hp, Hp'.
Qed.

Lemma emits_try_except {A} P catches (body : M A) handler :
  emits P body -> (forall e, emits P (handler e)) ->
  emits P (try_except catches body handler).
Proof.
  intros Hm Hk w. unfold try_except. specialize (Hm w).
  destruct (body w) as [[a|e|] w1]; cbn in Hm; try exact Hm.
  destruct (catches e); [|exact Hm].
  destruct Hm as (He & evs & Ht & Hp).
  destruct (Hk e w1) as (He' & evs' & Ht' & Hp').
  split; [congruence|]. exists (evs ++ evs')%list. split.
  - rewrite Ht', Ht. now rewrite app_assoc.
  - rewrite forallb_app. now rewrite Hp, Hp'.
Qed.

Lemma emits_of_sum {A} P (r : exn + A) : emits P (of_sum r).
Proof. destruct r; [apply emits_raise|apply emits_ret]. Qed.

Lemma emits_of_option_exn P (r : option exn) : emits P (of_option_exn r).
Proof. destruct r; [apply emits_raise|apply emits_ret]. Qed.

Lemma emits_weaken {A} (P Q : event -> bool) (m : M A) :
  (forall e, P e = true -> Q e = true) -> emits P m -> emits Q m.
Proof.
  intros HPQ Hm w. destruct (Hm w) as (He & evs & Ht & Hp).
  split; [exact He|]. exists evs. split; [exact Ht|].
  rewrite forallb_forall in *. auto.
Qed.

Create HintDb emits.
#[local] Hint Resolve emits_ret emits_raise emits_out_of_fuel emits_tick emits_of_sum
  emits_of_option_exn : emits.

(** Walks through a computation built from binds, [try] blocks, tests and
    primitive effects; what is left are the side conditions [P e = true] and
    the calls of other functions. *)
Ltac emits_step :=
  match goal with
  | |- emits _ (bind _ _) => apply emits_bind; [|intros ?]
  | |- emits _ (try_except _ _ _) => apply emits_try_except; [|intros ?]
  | |- emits _ (emit _) => apply emits_emit; try reflexivity
  | |- emits _ (print _) => apply emits_emit; try reflexivity
  | |- emits _ (sleep _) => apply emits_emit; try reflexivity
  | |- emits _ (if ?b then _ else _) => destruct b
  | |- emits _ (match ?x with _ => _ end) => destruct x
  | |- emits _ _ => solve [auto with emits]
  end.

Ltac emits_auto := repeat emits_step.

(** * Properties of webui_setup.py *)

Section WebuiProperties.
Import Webui.

(** ** Tunnel watchdog *)

Lemma existsb_eqb_In (u : string) (urls : list string) :
  existsb (String.eqb u) urls = true <-> In u urls.
Proof.
  rewrite existsb_exists. split.
  - intros [x [Hx He]]. apply String.eqb_eq in He. now subst.
  - intros H. exists u. split; [assumption|apply String.eqb_refl].
Qed.

Lemma check_passes_false_iff env url n :
  check_passes env url n = false <-> check_fails env url n.
Proof.
  unfold check_passes. split.
  - intros H.
    destruct (env_http env n) as [e|r] eqn:E1; [now apply (fails_list_error _ _ _ e)|].
    destruct (tunnel_urls r) as [urls|] eqn:E2; [|now apply (fails_list_body _ _ _ r)].
    destruct (existsb (String.eqb url) urls) eqn:E3.
    + apply existsb_eqb_In in E3. cbn in H.
      destruct (env_http env (S n)) as [e|r2] eqn:E4.
      * now apply (fails_probe_error _ _ _ r urls e).
      * apply (fails_status _ _ _ r urls r2); auto. now apply Z.eqb_neq.
    + apply (fails_omitted _ _ _ r urls); auto.
      intros Hin. apply existsb_eqb_In in Hin. congruence.
  - intros [r urls E1 E2 Hn | r urls r2 E1 E2 Hin E3 Hs | e E1 | r E1 E2 | r urls e E1 E2 Hin E3];
      rewrite ?E1, ?E2, ?E3; auto.
    + destruct (existsb (String.eqb url) urls) eqn:E; auto.
      apply existsb_eqb_In in E. contradiction.
    + apply andb_false_iff. right. now apply Z.eqb_neq.
    + apply andb_false_r.
Qed.

Lemma watchdog_cycle_passes env url f w :
  check_passes env url (w_count w ChHttp) = true ->
  exists w1, ngrok_watchdog_loop env (S f) url w = ngrok_watchdog_loop env f url w1
    /\ w_count w1 ChHttp = S (S (w_count w ChHttp))
    /\ w_trace w1 = (w_trace w ++ passing_cycle url)%list
    /\ w_envfile w1 = w_envfile w.
Proof.
  unfold check_passes. intros H.
  destruct (env_http env (w_count w ChHttp)) as [e|r] eqn:E1; [discriminate|].
  destruct (tunnel_urls r) as [urls|] eqn:E2; [|discriminate].
  apply andb_true_iff in H. destruct H as [Hin H].
  destruct (env_http env (S (w_count w ChHttp))) as [e|r2] eqn:E3; [discriminate|].
  eexists. split.
  - cbn [ngrok_watchdog_loop]. mrun. rewrite E1. mrun. rewrite E2. cbn.
    rewrite Hin. cbn. rewrite E3. cbn. rewrite H. cbn. reflexivity.
  - cbn. rewrite <- !app_assoc. auto.
Qed.

Lemma watchdog_cycle_fails env url f w :
  check_passes env url (w_count w ChHttp) = false ->
  exists tail w1, ngrok_watchdog_loop env (S f) url w = (Ret false, w1)
    /\ w_trace w1 = (w_trace w ++ EvGet tunnels_api :: tail)%list
    /\ forallb (fun e => negb (is_sleep e)) tail = true
    /\ w_count w1 ChHttp <= S (S (w_count w ChHttp))
    /\ w_envfile w1 = w_envfile w.
Proof.
  unfold check_passes. intros H. cbn [ngrok_watchdog_loop]. mrun.
  destruct (env_http env (w_count w ChHttp)) as [e|r] eqn:E1.
  { mrun. eexists _, _. split; [reflexivity|]. cbn. rewrite <- !app_assoc. cbn. auto. }
  mrun. destruct (tunnel_urls r) as [urls|] eqn:E2.
  2:{ mrun. eexists _, _. split; [reflexivity|]. cbn. rewrite <- !app_assoc. cbn. auto. }
  cbn. destruct (existsb (String.eqb url) urls) eqn:E3.
  2:{ mrun. eexists _, _. split; [reflexivity|]. cbn. rewrite <- !app_assoc. cbn. auto. }
  cbn in H |- *. destruct (env_http env (S (w_count w ChHttp))) as [e|r2] eqn:E4.
  { mrun. eexists _, _. split; [reflexivity|]. cbn. rewrite <- !app_assoc. cbn. auto. }
  cbn. rewrite H. cbn.
  eexists _, _. split; [reflexivity|]. cbn. rewrite <- !app_assoc. cbn. auto.
Qed.

Lemma watchdog_loop_first_failure env url k :
  forall fuel w,
    (forall i, i < k -> check_passes env url (w_count w ChHttp + 2 * i) = true) ->
    check_fails env url (w_count w ChHttp + 2 * k) ->
    k < fuel ->
    exists tail w',
      ngrok_watchdog_loop env fuel url w = (Ret false, w')
      /\ w_trace w' = (w_trace w ++ passing_cycles k url ++ EvGet tunnels_api :: tail)%list
      /\ forallb (fun e => negb (is_sleep e)) tail = true
      /\ w_count w' ChHttp <= w_count w ChHttp + 2 * k + 2
      /\ w_envfile w' = w_envfile w.
Proof.
  induction k as [|k IH]; intros fuel w Hpass Hfail Hfuel.
  - destruct fuel as [|f]; [lia|].
    rewrite Nat.mul_0_r, Nat.add_0_r in Hfail.
    apply check_passes_false_iff in Hfail.
    destruct (watchdog_cycle_fails env url f w Hfail) as (tail & w1 & E & Ht & Hs & Hc & He).
    exists tail, w1. cbn. repeat split; auto. lia.
  - destruct fuel as [|f]; [lia|].
    assert (H0 : check_passes env url (w_count w ChHttp) = true).
    { specialize (Hpass 0). rewrite Nat.mul_0_r, Nat.add_0_r in Hpass. apply Hpass. lia. }
    destruct (watchdog_cycle_passes env url f w H0) as (w1 & E & Hc & Ht & He).
    destruct (IH f w1) as (tail & w' & E' & Ht' & Hs' & Hc' & He').
    + intros i Hi. rewrite Hc.
      replace (S (S (w_count w ChHttp)) + 2 * i) with (w_count w ChHttp + 2 * S i) by lia.
      apply Hpass. lia.
    + rewrite Hc.
      now replace (S (S (w_count w ChHttp)) + 2 * k) with (w_count w ChHttp + 2 * S k) by lia.
    + lia.
    + exists tail, w'. rewrite E, E'. repeat split; auto.
      * rewrite Ht', Ht. unfold passing_cycles; cbn [times]. now rewrite <- !app_assoc.
      * lia.
      * congruence.
Qed.

Lemma watchdog_loop_still_running env url k :
  forall w,
    (forall i, i < k -> check_passes env url (w_count w ChHttp + 2 * i) = true) ->
    exists w',
      ngrok_watchdog_loop env k url w = (OutOfFuel, w')
      /\ w_trace w' = (w_trace w ++ passing_cycles k url)%list.
Proof.
  induction k as [|k IH]; intros w Hpass.
  - exists w. cbn. now rewrite app_nil_r.
  - assert (H0 : check_passes env url (w_count w ChHttp) = true).
    { specialize (Hpass 0). rewrite Nat.mul_0_r, Nat.add_0_r in Hpass. apply Hpass. lia. }
    destruct (watchdog_cycle_passes env url k w H0) as (w1 & E & Hc & Ht & He).
    destruct (IH w1) as (w' & E' & Ht').
    + intros i Hi. rewrite Hc.
      replace (S (S (w_count w ChHttp)) + 2 * i) with (w_count w ChHttp + 2 * S i) by lia.
      apply Hpass. lia.
    + exists w'. rewrite E, E'. split; auto.
      rewrite Ht', Ht. unfold passing_cycles; cbn [times]. now rewrite <- !app_assoc.
Qed.

Lemma watchdog_loop_outcome env url fuel :
  forall w, fst (ngrok_watchdog_loop env fuel url w) = Ret false
            \/ fst (ngrok_watchdog_loop env fuel url w) = OutOfFuel.
Proof.
  induction fuel as [|f IH]; intros w.
  - right. reflexivity.
  - destruct (check_passes env url (w_count w ChHttp)) eqn:E.
    + destruct (watchdog_cycle_passes env url f w E) as (w1 & E1 & _). rewrite E1. apply IH.
    + destruct (watchdog_cycle_fails env url f w E) as (tail & w1 & E1 & _). rewrite E1. now left.
Qed.


Lemma ngrok_watchdog_unfold env fuel url w :
  ngrok_watchdog env fuel url w = ngrok_watchdog_loop env fuel url (watchdog_started w url).
Proof. reflexivity. Qed.

Lemma ngrok_watchdog_outcome env url fuel w :
  fst (ngrok_watchdog env fuel url w) = Ret false
  \/ fst (ngrok_watchdog env fuel url w) = OutOfFuel.
Proof. rewrite ngrok_watchdog_unfold. apply watchdog_loop_outcome. Qed.

(** C4.  [ngrok_watchdog] never returns [True] and never raises.  When the
    first [k] check cycles find the tunnel listed and reachable and the
    next one fails (the URL is missing from the provider's list, the probe
    of the URL answers another status than 200, or a request or the
    decoding of the list raises), it returns [False] in that very cycle:
    after [k] passing cycles, each closed by a 15-second sleep, the failing
    cycle starts with the GET of the list, sleeps no more and performs at
    most its own two GETs.  While all cycles pass, it is still running:
    after [k] cycles it has slept [k] times and not returned. *)
Theorem ngrok_watchdog_fails_on_first_bad_check env url w :
  (forall fuel,
      fst (ngrok_watchdog env fuel url w) <> Ret true
      /\ forall e, fst (ngrok_watchdog env fuel url w) <> Raise e)
  /\ (forall k fuel,
      (forall i, i < k -> check_passes env url (w_count w ChHttp + 2 * i) = true) ->
      check_fails env url (w_count w ChHttp + 2 * k) ->
      k < fuel ->
      exists tail w',
        ngrok_watchdog env fuel url w = (Ret false, w')
        /\ w_trace w' = (w_trace w ++ EvPrint (LogWatchdogStart url)
                           :: passing_cycles k url ++ EvGet tunnels_api :: tail)%list
        /\ forallb (fun e => negb (is_sleep e)) tail = true
        /\ w_count w' ChHttp <= w_count w ChHttp + 2 * k + 2)
  /\ (forall k,
      (forall i, i < k -> check_passes env url (w_count w ChHttp + 2 * i) = true) ->
      exists w',
        ngrok_watchdog env k url w = (OutOfFuel, w')
        /\ w_trace w' = (w_trace w ++ EvPrint (LogWatchdogStart url)
                           :: passing_cycles k url)%list).
Proof.
  split; [|split].
  - intros fuel.
    destruct (ngrok_watchdog_outcome env url fuel w) as [H|H];
      rewrite H; split; try intros e; discriminate.
  - intros k fuel Hpass Hfail Hfuel. rewrite ngrok_watchdog_unfold.
    destruct (watchdog_loop_first_failure env url k fuel (watchdog_started w url))
      as (tail & w' & E & Ht & Hs & Hc & _); auto.
    exists tail, w'. repeat split; auto.
    rewrite Ht. cbn. now rewrite <- app_assoc.
  - intros k Hpass. rewrite ngrok_watchdog_unfold.
    destruct (watchdog_loop_still_running env url k (watchdog_started w url))
      as (w' & E & Ht); auto.
    exists w'. split; auto. rewrite Ht. cbn. now rewrite <- app_assoc.
Qed.

(** ** Tunnel establishment *)

Lemma connect_attempts_success env k :
  forall remaining attempt w t,
    k < remaining ->
    (forall i, i < k -> connect_fails env (w_count w ChConnect + i) = true) ->
    env_connect env (w_count w ChConnect + k) = inr t ->
    exists w',
      connect_attempts env remaining attempt w = (Ret (Some t), w')
      /\ w_trace w' =
           (w_trace w ++ failed_attempts env k (w_count w ChConnect) attempt
              ++ [EvConnect 8080; EvPrint (LogTunnelEstablished (public_url t))])%list
      /\ w_count w' ChConnect = w_count w ChConnect + k + 1
      /\ w_envfile w' = w_envfile w.
Proof.
  induction k as [|k IH]; intros remaining attempt w t Hk Hfail Hok;
    (destruct remaining as [|rem]; [lia|]).
  - rewrite Nat.add_0_r in Hok. eexists. split.
    + cbn [connect_attempts]. mrun. rewrite Hok. mrun. reflexivity.
    + cbn. rewrite <- !app_assoc. repeat split; auto. lia.
  - assert (H0 : connect_fails env (w_count w ChConnect) = true).
    { specialize (Hfail 0). rewrite Nat.add_0_r in Hfail. apply Hfail. lia. }
    unfold connect_fails in H0.
    destruct (env_connect env (w_count w ChConnect)) as [e|?] eqn:E; [|discriminate].
    cbn [connect_attempts]. mrun. rewrite E. mrun.
    match goal with |- context [connect_attempts env rem (S attempt) ?w1] =>
      destruct (IH rem (S attempt) w1 t) as (w' & E' & Ht & Hc & He) end.
    + lia.
    + intros i Hi. cbn. replace (S (w_count w ChConnect + i))
        with (w_count w ChConnect + S i) by lia. apply Hfail. lia.
    + cbn. now replace (S (w_count w ChConnect + k))
        with (w_count w ChConnect + S k) by lia.
    + exists w'. split; [exact E'|]. cbn in Ht, Hc, He. repeat split; auto.
      * rewrite Ht. cbn [failed_attempts]. unfold connect_error. rewrite E.
        now rewrite <- !app_assoc.
      * lia.
Qed.

Lemma connect_attempts_exhausted env remaining :
  forall attempt w,
    (forall i, i < remaining -> connect_fails env (w_count w ChConnect + i) = true) ->
    exists w',
      connect_attempts env remaining attempt w = (Ret None, w')
      /\ w_trace w' =
           (w_trace w ++ failed_attempts env remaining (w_count w ChConnect) attempt
              ++ [EvPrint LogTunnelFailed])%list
      /\ w_count w' ChConnect = w_count w ChConnect + remaining
      /\ w_envfile w' = w_envfile w.
Proof.
  induction remaining as [|rem IH]; intros attempt w Hfail.
  - eexists. split; [reflexivity|]. cbn. repeat split; auto.
  - assert (H0 : connect_fails env (w_count w ChConnect) = true).
    { specialize (Hfail 0). rewrite Nat.add_0_r in Hfail. apply Hfail. lia. }
    unfold connect_fails in H0.
    destruct (env_connect env (w_count w ChConnect)) as [e|?] eqn:E; [|discriminate].
    cbn [connect_attempts]. mrun. rewrite E. mrun.
    match goal with |- context [connect_attempts env rem (S attempt) ?w1] =>
      destruct (IH (S attempt) w1) as (w' & E' & Ht & Hc & He) end.
    + intros i Hi. cbn. replace (S (w_count w ChConnect + i))
        with (w_count w ChConnect + S i) by lia. apply Hfail. lia.
    + exists w'. split; [exact E'|]. cbn in Ht, Hc, He. repeat split; auto.
      * rewrite Ht. cbn [failed_attempts]. unfold connect_error. rewrite E.
        now rewrite <- !app_assoc.
      * lia.
Qed.

Lemma token_present_not_missing (token : string) :
  token <> EmptyString -> token_missing (Some token) = false.
Proof. destruct token; [congruence|reflexivity]. Qed.

Lemma create_ngrok_tunnel_with_token env w token :
  env_token env = Some token -> token_missing (Some token) = false ->
  create_ngrok_tunnel env w = connect_attempts env max_retries 0 (token_set w token).
Proof.
  intros Htok Hne. unfold create_ngrok_tunnel, os_getenv_token, bind, ret.
  rewrite Htok, Hne. reflexivity.
Qed.

(** C5.  With a credential, [create_ngrok_tunnel] calls [ngrok.connect]
    until it succeeds, at most [max_retries] = 5 times.  When the first [k]
    calls raise ([k] < 5) and the next one succeeds, it returns that tunnel,
    having logged each failure and slept [retry_delay] = 5 seconds after
    it (so that a wait lies between any two consecutive attempts); [k] = 4
    is the provider that succeeds on the last attempt.  When all 5 calls
    raise it returns [None] after exactly 5 calls. *)
Theorem create_ngrok_tunnel_bounded_retry env w token :
  env_token env = Some token -> token <> EmptyString ->
  (forall k t,
      k < max_retries ->
      (forall i, i < k -> connect_fails env (w_count w ChConnect + i) = true) ->
      env_connect env (w_count w ChConnect + k) = inr t ->
      exists w',
        create_ngrok_tunnel env w = (Ret (Some t), w')
        /\ w_trace w' =
             (w_trace w ++ EvSetAuthToken token
                :: failed_attempts env k (w_count w ChConnect) 0
                ++ [EvConnect 8080; EvPrint (LogTunnelEstablished (public_url t))])%list
        /\ w_count w' ChConnect = w_count w ChConnect + k + 1)
  /\ ((forall i, i < max_retries ->
                 connect_fails env (w_count w ChConnect + i) = true) ->
      exists w',
        create_ngrok_tunnel env w = (Ret None, w')
        /\ w_trace w' =
             (w_trace w ++ EvSetAuthToken token
                :: failed_attempts env max_retries (w_count w ChConnect) 0
                ++ [EvPrint LogTunnelFailed])%list
        /\ w_count w' ChConnect = w_count w ChConnect + max_retries).
Proof.
  intros Htok Hne. apply token_present_not_missing in Hne.
  split.
  - intros k t Hk Hfail Hok.
    rewrite (create_ngrok_tunnel_with_token env w token Htok Hne).
    destruct (connect_attempts_success env k max_retries 0
                (token_set w token) t) as (w' & E & Ht & Hc & _); auto.
    exists w'. split; [exact E|]. cbn in Ht, Hc. split; auto.
    rewrite Ht. now rewrite <- !app_assoc.
  - intros Hfail.
    rewrite (create_ngrok_tunnel_with_token env w token Htok Hne).
    destruct (connect_attempts_exhausted env max_retries 0
                (token_set w token)) as (w' & E & Ht & Hc & _); auto.
    exists w'. split; [exact E|]. cbn in Ht, Hc. split; auto.
    rewrite Ht. now rewrite <- !app_assoc.
Qed.

(** C6.  Without a credential ([NGROK_AUTHTOKEN] unset or empty),
    [create_ngrok_tunnel] returns [None] at once: it prints one line and
    does nothing else, so no counter moves: no [ngrok.connect] call, no
    wait, no retry. *)
Theorem create_ngrok_tunnel_without_token env w :
  token_missing (env_token env) = true ->
  create_ngrok_tunnel env w =
    (Ret None,
     mkWorld (w_count w) (w_envfile w) (w_trace w ++ [EvPrint LogTokenNotSet])).
Proof.
  intros H. unfold create_ngrok_tunnel. mrun. rewrite H. reflexivity.
Qed.

(** ** Readiness polling of the backend *)

Lemma backend_loop_retries env url start timeout f w :
  in_window env start timeout (w_count w ChClock) ->
  backend_retry env (w_count w ChHttp) = true ->
  exists w1,
    wait_for_backend_loop env (S f) url start timeout w
      = wait_for_backend_loop env f url start timeout w1
    /\ w_count w1 ChClock = S (w_count w ChClock)
    /\ w_count w1 ChHttp = S (w_count w ChHttp)
    /\ w_trace w1 = (w_trace w ++ [EvGet url; EvSleep 1])%list
    /\ w_envfile w1 = w_envfile w.
Proof.
  unfold in_window, backend_retry. intros Hwin Hretry.
  cbn [wait_for_backend_loop]. mrun.
  destruct (Qlt_le_dec _ _) as [_|Hle]; [|exfalso; revert Hle; now apply Qlt_not_le].
  mrun. destruct (env_http env (w_count w ChHttp)) as [e|r].
  - mrun. rewrite Hretry. cbn. eexists. split; [reflexivity|].
    cbn. rewrite <- !app_assoc. auto.
  - mrun. apply negb_true_iff in Hretry. rewrite Hretry. cbn.
    eexists. split; [reflexivity|]. cbn. rewrite <- !app_assoc. auto.
Qed.

Lemma backend_loop_ready env url start timeout f w :
  in_window env start timeout (w_count w ChClock) ->
  backend_ready env (w_count w ChHttp) = true ->
  exists w1,
    wait_for_backend_loop env (S f) url start timeout w = (Ret true, w1)
    /\ w_count w1 ChHttp = S (w_count w ChHttp)
    /\ w_trace w1 = (w_trace w ++ [EvGet url; EvPrint LogBackendUp])%list
    /\ w_envfile w1 = w_envfile w.
Proof.
  unfold in_window, backend_ready. intros Hwin Hready.
  cbn [wait_for_backend_loop]. mrun.
  destruct (Qlt_le_dec _ _) as [_|Hle]; [|exfalso; revert Hle; now apply Qlt_not_le].
  mrun. destruct (env_http env (w_count w ChHttp)) as [e|r]; [discriminate|].
  mrun. rewrite Hready. cbn. eexists. split; [reflexivity|].
  cbn. rewrite <- !app_assoc. auto.
Qed.

Lemma backend_loop_window_closed env url start timeout f w :
  ~ in_window env start timeout (w_count w ChClock) ->
  wait_for_backend_loop env (S f) url start timeout w
  = (Ret false,
     mkWorld (fun c => if channel_eqb ChClock c then S (w_count w ChClock)
                       else w_count w c)
             (w_envfile w) (w_trace w ++ [EvPrint LogBackendNotReady])).
Proof.
  unfold in_window. intros Hwin.
  cbn [wait_for_backend_loop]. mrun.
  destruct (Qlt_le_dec _ _) as [Hlt|_]; [contradiction|]. reflexivity.
Qed.

Lemma backend_loop_succeeds env url start timeout k :
  forall fuel w,
    k < fuel ->
    (forall i, i <= k -> in_window env start timeout (w_count w ChClock + i)) ->
    (forall i, i < k -> backend_retry env (w_count w ChHttp + i) = true) ->
    backend_ready env (w_count w ChHttp + k) = true ->
    exists w',
      wait_for_backend_loop env fuel url start timeout w = (Ret true, w')
      /\ w_trace w' = (w_trace w ++ times k [EvGet url; EvSleep 1]
                         ++ [EvGet url; EvPrint LogBackendUp])%list
      /\ w_count w' ChHttp = w_count w ChHttp + k + 1
      /\ w_envfile w' = w_envfile w.
Proof.
  induction k as [|k IH]; intros fuel w Hfuel Hwin Hretry Hready;
    (destruct fuel as [|f]; [lia|]).
  - rewrite Nat.add_0_r in Hready.
    destruct (backend_loop_ready env url start timeout f w) as (w1 & E & Hc & Ht & He); auto.
    { specialize (Hwin 0). rewrite Nat.add_0_r in Hwin. apply Hwin. lia. }
    exists w1. repeat split; auto. lia.
  - destruct (backend_loop_retries env url start timeout f w) as (w1 & E & Hk & Hc & Ht & He).
    { specialize (Hwin 0). rewrite Nat.add_0_r in Hwin. apply Hwin. lia. }
    { specialize (Hretry 0). rewrite Nat.add_0_r in Hretry. apply Hretry. lia. }
    destruct (IH f w1) as (w' & E' & Ht' & Hc' & He').
    + lia.
    + intros i Hi. rewrite Hk.
      replace (S (w_count w ChClock) + i) with (w_count w ChClock + S i) by lia.
      apply Hwin. lia.
    + intros i Hi. rewrite Hc.
      replace (S (w_count w ChHttp) + i) with (w_count w ChHttp + S i) by lia.
      apply Hretry. lia.
    + rewrite Hc.
      now replace (S (w_count w ChHttp) + k) with (w_count w ChHttp + S k) by lia.
    + exists w'. rewrite E, E'. repeat split; auto.
      * rewrite Ht', Ht. cbn [times]. now rewrite <- !app_assoc.
      * lia.
      * congruence.
Qed.

Lemma backend_loop_times_out env url start timeout k :
  forall fuel w,
    k < fuel ->
    (forall i, i < k -> in_window env start timeout (w_count w ChClock + i)) ->
    ~ in_window env start timeout (w_count w ChClock + k) ->
    (forall i, i < k -> backend_retry env (w_count w ChHttp + i) = true) ->
    exists w',
      wait_for_backend_loop env fuel url start timeout w = (Ret false, w')
      /\ w_trace w' = (w_trace w ++ times k [EvGet url; EvSleep 1]
                         ++ [EvPrint LogBackendNotReady])%list
      /\ w_count w' ChHttp = w_count w ChHttp + k
      /\ w_envfile w' = w_envfile w.
Proof.
  induction k as [|k IH]; intros fuel w Hfuel Hwin Hout Hretry;
    (destruct fuel as [|f]; [lia|]).
  - rewrite Nat.add_0_r in Hout.
    rewrite (backend_loop_window_closed env url start timeout f w Hout).
    eexists. split; [reflexivity|]. cbn. repeat split; auto.
  - destruct (backend_loop_retries env url start timeout f w) as (w1 & E & Hk & Hc & Ht & He).
    { specialize (Hwin 0). rewrite Nat.add_0_r in Hwin. apply Hwin. lia. }
    { specialize (Hretry 0). rewrite Nat.add_0_r in Hretry. apply Hretry. lia. }
    destruct (IH f w1) as (w' & E' & Ht' & Hc' & He').
    + lia.
    + intros i Hi. rewrite Hk.
      replace (S (w_count w ChClock) + i) with (w_count w ChClock + S i) by lia.
      apply Hwin. lia.
    + rewrite Hk.
      now replace (S (w_count w ChClock) + k) with (w_count w ChClock + S k) by lia.
    + intros i Hi. rewrite Hc.
      replace (S (w_count w ChHttp) + i) with (w_count w ChHttp + S i) by lia.
      apply Hretry. lia.
    + exists w'. rewrite E, E'. repeat split; auto.
      * rewrite Ht', Ht. cbn [times]. now rewrite <- !app_assoc.
      * lia.
      * congruence.
Qed.

(** When every pass through the loop takes at least one second, the
    clock readings that fall inside the window are at most [timeout]. *)
Lemma window_holds_at_most_timeout env start timeout c k :
  (1 <= timeout)%Z ->
  (start <= env_clock env c)%Q ->
  (forall i, env_clock env (c + i) + 1 <= env_clock env (c + S i))%Q ->
  (forall i, i < k -> in_window env start timeout (c + i)) ->
  (Z.of_nat k <= timeout)%Z.
Proof.
  intros HT Hstart Hstep Hwin.
  destruct k as [|k]; [lia|].
  assert (Hgrow : forall i, (start + inject_Z (Z.of_nat i) <= env_clock env (c + i))%Q).
  { induction i as [|i IHi].
    - rewrite Nat.add_0_r. change (inject_Z (Z.of_nat 0)) with 0%Q. lra.
    - specialize (Hstep i). rewrite Nat2Z.inj_succ. unfold Z.succ.
      rewrite inject_Z_plus. change (inject_Z 1) with 1%Q. lra. }
  specialize (Hwin k (Nat.lt_succ_diag_r k)). unfold in_window, float_sub in Hwin.
  specialize (Hgrow k).
  assert (Hround : (inject_Z (Z.of_nat k) <= env_round env (env_clock env (c + k) - start))%Q)
    by (apply env_round_int; lra).
  assert (Hlt : (inject_Z (Z.of_nat k) < inject_Z timeout)%Q) by lra.
  rewrite <- Zlt_Qlt in Hlt. lia.
Qed.

Lemma wait_for_backend_unfold env fuel url timeout w :
  wait_for_backend env fuel url timeout w
  = wait_for_backend_loop env fuel url (env_clock env (w_count w ChClock)) timeout
      (backend_poll_started w url).
Proof. reflexivity. Qed.

(** ** Supervision loop *)

Ltac emits_prims :=
  unfold requests_get, active_urls_of, time_time, os_getenv_token,
    ngrok_connect, ngrok_disconnect.

Lemma connect_attempts_emits env remaining :
  forall attempt, emits tunnel_event (connect_attempts env remaining attempt).
Proof.
  induction remaining as [|rem IH]; intros attempt; cbn [connect_attempts];
    emits_prims; emits_auto.
Qed.

Lemma create_ngrok_tunnel_emits env : emits tunnel_event (create_ngrok_tunnel env).
Proof.
  unfold create_ngrok_tunnel. emits_prims.
  emits_auto; apply connect_attempts_emits.
Qed.

Lemma wait_for_backend_loop_emits env fuel url start timeout :
  emits polling_event (wait_for_backend_loop env fuel url start timeout).
Proof.
  induction fuel as [|f IH]; cbn [wait_for_backend_loop]; emits_prims; emits_auto.
Qed.

Lemma wait_for_backend_emits env fuel url timeout :
  emits polling_event (wait_for_backend env fuel url timeout).
Proof.
  unfold wait_for_backend. emits_prims. emits_auto.
  apply wait_for_backend_loop_emits.
Qed.

Lemma ngrok_watchdog_loop_emits env fuel url0 :
  emits (concerns_only url0) (ngrok_watchdog_loop env fuel url0).
Proof.
  induction fuel as [|f IH]; cbn [ngrok_watchdog_loop]; emits_prims; emits_auto;
    try (cbn; rewrite ?String.eqb_refl, ?orb_true_r; reflexivity).
Qed.

Lemma tunnel_event_concerns_only url0 e :
  tunnel_event e = true -> concerns_only url0 e = true.
Proof. destruct e as [[]| | | | | | | | | | | | | ]; cbn; congruence. Qed.

Lemma tunnel_event_no_file_access e :
  tunnel_event e = true -> no_file_access e = true.
Proof. destruct e; cbn; congruence. Qed.

Lemma polling_event_no_file_access e :
  polling_event e = true -> no_file_access e = true.
Proof. destruct e; cbn; congruence. Qed.

Lemma watchdog_loop_emits env fuel url0 :
  emits (concerns_only url0) (watchdog_loop env fuel url0).
Proof.
  induction fuel as [|f IH]; cbn [watchdog_loop]; [auto with emits|].
  unfold ngrok_watchdog. emits_prims. emits_auto;
    try (cbn; rewrite ?String.eqb_refl, ?orb_true_r; reflexivity);
    try apply IH.
  - apply ngrok_watchdog_loop_emits.
  - apply (emits_weaken tunnel_event); [apply tunnel_event_concerns_only|].
    apply create_ngrok_tunnel_emits.
Qed.

Lemma main_enters_loop env fuel w w1 w2 t content :
  wait_for_backend env fuel backend_url 30 w = (Ret true, w1) ->
  create_ngrok_tunnel env w1 = (Ret (Some t), w2) ->
  w_envfile w2 = Some content ->
  main env fuel w
  = watchdog_loop env fuel (public_url t) (loop_entry w2 content (public_url t)).
Proof.
  intros H1 H2 H3. unfold main. unfold bind at 1. rewrite H1.
  cbn [negb]. unfold bind at 1. rewrite H2.
  unfold update_env, read_env_lines, write_env_lines, os_system, print, emit, bind.
  rewrite H3. cbn [w_envfile w_trace w_count].
  unfold loop_entry, updated_content. cbn [w_envfile w_trace w_count].
  rewrite <- !app_assoc. reflexivity.
Qed.



Lemma forallb_no_file_access_spec evs :
  forallb no_file_access evs = true ->
  forall path text, ~ In (EvWriteFile path text) evs.
Proof.
  intros H path text Hin. rewrite forallb_forall in H.
  specialize (H _ Hin). discriminate.
Qed.

(** C10.  When [wait_for_backend] returns [False], and when it returns
    [True] but the first [create_ngrok_tunnel] returns [None], [main]
    returns without having written the [.env] file: the file's content is
    what it was and the trace holds no write. *)
Theorem main_error_paths_leave_env_file env fuel w :
  (forall w1,
      wait_for_backend env fuel backend_url 30 w = (Ret false, w1) ->
      exists w' evs,
        main env fuel w = (Ret tt, w')
        /\ w_envfile w' = w_envfile w
        /\ w_trace w' = (w_trace w ++ evs)%list
        /\ forall path text, ~ In (EvWriteFile path text) evs)
  /\ (forall w1 w2,
      wait_for_backend env fuel backend_url 30 w = (Ret true, w1) ->
      create_ngrok_tunnel env w1 = (Ret None, w2) ->
      exists evs,
        main env fuel w = (Ret tt, w2)
        /\ w_envfile w2 = w_envfile w
        /\ w_trace w2 = (w_trace w ++ evs)%list
        /\ forall path text, ~ In (EvWriteFile path text) evs).
Proof.
  split.
  - intros w1 H1.
    destruct (wait_for_backend_emits env fuel backend_url 30 w) as (He & evs & Ht & Hp).
    rewrite H1 in He, Ht. cbn in He, Ht.
    eexists _, (evs ++ [EvPrint LogExitNoTunnel])%list. split.
    + unfold main. unfold bind at 1. rewrite H1. reflexivity.
    + cbn. split; [exact He|]. split; [rewrite Ht; now rewrite app_assoc|].
      apply forallb_no_file_access_spec. rewrite forallb_app. cbn.
      rewrite andb_true_r. rewrite forallb_forall in *.
      intros e Hin. apply polling_event_no_file_access. now apply Hp.
  - intros w1 w2 H1 H2.
    destruct (wait_for_backend_emits env fuel backend_url 30 w) as (He & evs & Ht & Hp).
    rewrite H1 in He, Ht. cbn in He, Ht.
    destruct (create_ngrok_tunnel_emits env w1) as (He' & evs' & Ht' & Hp').
    rewrite H2 in He', Ht'. cbn in He', Ht'.
    exists (evs ++ evs')%list. split.
    + unfold main. unfold bind at 1. rewrite H1. cbn [negb].
      unfold bind at 1. rewrite H2. reflexivity.
    + split; [congruence|]. split; [rewrite Ht', Ht; now rewrite app_assoc|].
      apply forallb_no_file_access_spec. rewrite forallb_app.
      apply andb_true_iff. rewrite !forallb_forall in *. split; intros e Hin.
      * apply polling_event_no_file_access. now apply Hp.
      * apply tunnel_event_no_file_access. now apply Hp'.
Qed.

(** *** How the loop of [main] ends *)

Lemma connect_attempts_returns env remaining :
  forall attempt w, exists r w', connect_attempts env remaining attempt w = (Ret r, w').
Proof.
  induction remaining as [|rem IH]; intros attempt w.
  - eexists _, _. reflexivity.
  - cbn [connect_attempts]. mrun.
    destruct (env_connect env (w_count w ChConnect)) as [e|t]; mrun.
    + apply IH.
    + eexists _, _. reflexivity.
Qed.

Lemma create_ngrok_tunnel_returns env w :
  exists r w', create_ngrok_tunnel env w = (Ret r, w').
Proof.
  unfold create_ngrok_tunnel, os_getenv_token, bind, ret.
  destruct (token_missing (env_token env)).
  - eexists _, _. reflexivity.
  - cbn [emit]. apply connect_attempts_returns.
Qed.

Lemma disconnect_is_guarded {B} env w url (k : M B) :
  (print LogReconnecting ;;
   try_except is_exception
     (ngrok_disconnect env url)
     (fun e => print (LogDisconnectFailed e)) ;;
   k)%monad w
  = k (disconnected env w url).
Proof.
  unfold disconnected. mrun.
  destruct (env_disconnect env (w_count w ChDisconnect)); reflexivity.
Qed.

(** One turn of the loop of [main]: the watchdog has reported the failure;
    the loop goes on when the tunnel is re-established and ends when it is
    not. *)
Lemma watchdog_loop_turn env f url w w1 :
  ngrok_watchdog env f url w = (Ret false, w1) ->
  forall r w2,
    create_ngrok_tunnel env (disconnected env w1 url) = (Ret r, w2) ->
    watchdog_loop env (S f) url w =
      match r with
      | Some _ => watchdog_loop env f url w2
      | None => (Ret tt, mkWorld (w_count w2) (w_envfile w2)
                                 (w_trace w2 ++ [EvPrint LogCouldNotRecreate]))
      end.
Proof.
  intros Hw r w2 Hc. cbn [watchdog_loop]. unfold bind at 1. rewrite Hw.
  cbn [negb]. rewrite disconnect_is_guarded. unfold bind at 1. rewrite Hc.
  destruct r; reflexivity.
Qed.

(** With [create_ngrok_tunnel] as modelled ([ngrok.set_auth_token] and
    the pyngrok configuration return), the loop of [main] lets no exception
    out, and it returns only from the turn in which [create_ngrok_tunnel]
    has returned [None]. *)
Lemma watchdog_loop_ends_on_failed_reconnect env url fuel :
  forall w,
    match watchdog_loop env fuel url w with
    | (Ret _, w') =>
        exists w1 w2,
          create_ngrok_tunnel env (disconnected env w1 url) = (Ret None, w2)
          /\ w_trace w' = (w_trace w2 ++ [EvPrint LogCouldNotRecreate])%list
    | (Raise _, _) => False
    | (OutOfFuel, _) => True
    end.
Proof.
  induction fuel as [|f IH]; intros w; [exact I|].
  pose proof (ngrok_watchdog_outcome env url f w) as Hout.
  destruct (ngrok_watchdog env f url w) as [[[|]|e|] w1] eqn:Hw; cbn in Hout.
  - destruct Hout; discriminate.
  - destruct (create_ngrok_tunnel_returns env (disconnected env w1 url)) as (r & w2 & Hc).
    rewrite (watchdog_loop_turn env f url w w1 Hw r w2 Hc).
    destruct r as [t|].
    + apply IH.
    + exists w1, w2. split; [exact Hc|reflexivity].
  - destruct Hout; discriminate.
  - cbn [watchdog_loop]. unfold bind at 1. rewrite Hw. exact I.
Qed.

(** C1 (defect in the code).  A complete run of [main] in which the tunnel
    is replaced once: the first tunnel is [https://a.ngrok.io], the
    watchdog reports its loss, [create_ngrok_tunnel] returns the
    replacement [https://b.ngrok.io], and the program ends when the next
    re-establishment fails.  The [.env] file is written twice, both times
    before the loop and for the first URL; the replacement's URL is never
    written, the file still names the first URL when the program ends, and
    the second watchdog run is again started on the first URL. *)
Theorem main_does_not_persist_replacement_url :
  let run := main replaced_once 3 (initial_world (Some EmptyString)) in
  let line_a := ("NGROK_URL=https://a.ngrok.io" ++ newline)%string in
  fst run = Ret tt
  /\ filter is_established (w_trace (snd run))
     = [EvPrint (LogTunnelEstablished "https://a.ngrok.io");
        EvPrint (LogTunnelEstablished "https://b.ngrok.io")]
  /\ filter is_write (w_trace (snd run))
     = [EvWriteFile env_path line_a; EvWriteFile env_path line_a]
  /\ w_envfile (snd run) = Some line_a
  /\ filter is_watchdog_start (w_trace (snd run))
     = [EvPrint (LogWatchdogStart "https://a.ngrok.io");
        EvPrint (LogWatchdogStart "https://a.ngrok.io")].
Proof. vm_compute. repeat split. Qed.

(** ** The [.env] file *)

Lemma universal_newlines_proper line s :
  proper_line line = true ->
  universal_newlines false (line ++ s) = (line ++ universal_newlines false s)%string.
Proof.
  induction line as [|c rest IH]; intros H; [discriminate|].
  cbn [proper_line] in H. cbn [append universal_newlines].
  destruct (Ascii.eqb c LF) eqn:Ec.
  - apply Ascii.eqb_eq in Ec. subst c. destruct rest; [|discriminate].
    reflexivity.
  - apply andb_true_iff in H. destruct H as [Hcr H].
    apply negb_true_iff in Hcr. rewrite Hcr. now rewrite IH.
Qed.

Lemma split_keepends_proper line s :
  proper_line line = true ->
  split_keepends (line ++ s) = line :: split_keepends s.
Proof.
  induction line as [|c rest IH]; intros H; [discriminate|].
  cbn [proper_line] in H. cbn [append split_keepends].
  destruct (Ascii.eqb c LF) eqn:Ec.
  - destruct rest; [|discriminate]. reflexivity.
  - apply andb_true_iff in H. destruct H as [_ H]. now rewrite IH.
Qed.

(** What was written line by line is read back line by line. *)
Lemma readlines_writelines lines :
  forallb proper_line lines = true -> readlines (writelines lines) = lines.
Proof.
  induction lines as [|l ls IH]; intros H; [reflexivity|].
  cbn [forallb] in H. apply andb_true_iff in H. destruct H as [Hl Hls].
  unfold readlines in *. cbn [writelines fold_right].
  rewrite universal_newlines_proper by exact Hl.
  rewrite split_keepends_proper by exact Hl.
  f_equal. now apply IH.
Qed.

Lemma universal_newlines_no_cr s : forall b, no_cr (universal_newlines b s) = true.
Proof.
  induction s as [|c rest IH]; intros b; [reflexivity|].
  cbn [universal_newlines].
  destruct (Ascii.eqb c CR) eqn:Ecr; [cbn; apply IH|].
  destruct (Ascii.eqb c LF) eqn:Elf.
  - destruct b; [apply IH|]. cbn. apply IH.
  - cbn. rewrite Ecr. cbn. apply IH.
Qed.

(** A line cut out of a text without CR ends with its only LF or holds no
    line break at all. *)
Lemma split_keepends_shape s :
  no_cr s = true ->
  forall line, In line (split_keepends s) ->
               proper_line line = true \/ no_line_break line = true.
Proof.
  induction s as [|c rest IH]; intros Hcr line Hin; [destruct Hin|].
  cbn [no_cr] in Hcr. apply andb_true_iff in Hcr. destruct Hcr as [Hc Hcr].
  cbn [split_keepends] in Hin. destruct (Ascii.eqb c LF) eqn:Elf.
  - destruct Hin as [<-|Hin]; [|now apply IH].
    left. cbn. now rewrite Elf.
  - destruct (split_keepends rest) as [|l ls] eqn:Es.
    + destruct Hin as [<-|[]]. right. cbn. now rewrite Hc, Elf.
    + destruct Hin as [<-|Hin].
      * destruct (IH Hcr l (or_introl eq_refl)) as [H|H].
        -- left. cbn [proper_line]. now rewrite Elf, Hc, H.
        -- right. cbn [no_line_break]. now rewrite Hc, Elf, H.
      * apply (IH Hcr). now right.
Qed.

Lemma terminated_has_line_break line :
  terminated line = true -> no_line_break line = false.
Proof.
  induction line as [|c rest IH]; intros H; [discriminate|].
  cbn [terminated] in H. cbn [no_line_break]. destruct rest as [|c' rest'].
  - rewrite H. cbn. now rewrite andb_false_r.
  - rewrite (IH H). apply andb_false_r.
Qed.

Lemma readlines_terminated_proper content :
  forallb terminated (readlines content) = true ->
  forallb proper_line (readlines content) = true.
Proof.
  intros H. rewrite forallb_forall in *. intros line Hin.
  destruct (split_keepends_shape _ (universal_newlines_no_cr content false) line Hin)
    as [Hp|Hn]; [exact Hp|].
  specialize (H line Hin). apply terminated_has_line_break in H. congruence.
Qed.

Lemma proper_line_closed body :
  no_line_break body = true -> proper_line (body ++ newline) = true.
Proof.
  induction body as [|c rest IH]; intros H; [reflexivity|].
  cbn [no_line_break] in H. apply andb_true_iff in H. destruct H as [H Hrest].
  apply andb_true_iff in H. destruct H as [Hcr Hlf].
  cbn [append proper_line]. apply negb_true_iff in Hlf. rewrite Hlf, Hcr.
  now apply IH.
Qed.

Lemma key_line_proper url :
  no_line_break url = true -> proper_line (key_line url) = true.
Proof.
  intros H. unfold key_line. cbn. now apply proper_line_closed.
Qed.

Lemma key_line_is_key_line url : is_key_line (key_line url) = true.
Proof.
  unfold is_key_line, startswith, key_line. cbn.
  destruct (url ++ newline)%string; reflexivity.
Qed.

Lemma other_lines_proper lines :
  forallb proper_line lines = true -> forallb proper_line (other_lines lines) = true.
Proof.
  intros H. rewrite forallb_forall in *. intros l Hin.
  apply filter_In in Hin. now apply H.
Qed.

Lemma other_lines_idempotent lines : other_lines (other_lines lines) = other_lines lines.
Proof.
  unfold other_lines. induction lines as [|l ls IH]; [reflexivity|].
  cbn [filter]. destruct (negb (is_key_line l)) eqn:E; [|exact IH].
  cbn [filter]. rewrite E. now rewrite IH.
Qed.

Lemma updated_lines_eq lines url :
  updated_lines lines url = (other_lines lines ++ [key_line url])%list.
Proof. reflexivity. Qed.

(** On a file whose lines all end with a line break, one update leaves the
    other lines, in their order, followed by the line for the new value. *)
Lemma readlines_updated_content content url :
  forallb terminated (readlines content) = true ->
  no_line_break url = true ->
  readlines (updated_content content url)
  = (other_lines (readlines content) ++ [key_line url])%list.
Proof.
  intros Hc Hu. unfold updated_content. rewrite updated_lines_eq.
  apply readlines_writelines. rewrite forallb_app. apply andb_true_iff. split.
  - apply other_lines_proper. now apply readlines_terminated_proper.
  - cbn [forallb]. now rewrite key_line_proper.
Qed.

Lemma other_lines_app_key lines url :
  other_lines (lines ++ [key_line url]) = other_lines lines.
Proof.
  unfold other_lines. rewrite filter_app. cbn [filter].
  rewrite key_line_is_key_line. cbn. apply app_nil_r.
Qed.

Lemma key_lines_of_updated lines url :
  filter is_key_line (other_lines lines ++ [key_line url]) = [key_line url].
Proof.
  rewrite filter_app. cbn [filter]. rewrite key_line_is_key_line.
  replace (filter is_key_line (other_lines lines)) with (@nil string); [reflexivity|].
  unfold other_lines. induction lines as [|l ls IH]; [reflexivity|].
  cbn [filter]. destruct (is_key_line l) eqn:E; cbn [negb]; [exact IH|].
  cbn [filter]. now rewrite E.
Qed.

(** The persistence property on well-formed files: when every line of the
    file ends with a line break, writing the key for [a] and then for [b]
    leaves exactly one line for the key, the one for [b], and the other
    lines as they were, in their order. *)
Lemma update_twice_on_terminated_file content a b :
  forallb terminated (readlines content) = true ->
  no_line_break a = true -> no_line_break b = true ->
  let after := readlines (updated_content (updated_content content a) b) in
  after = (other_lines (readlines content) ++ [key_line b])%list
  /\ filter is_key_line after = [key_line b]
  /\ other_lines after = other_lines (readlines content).
Proof.
  intros Hc Ha Hb after.
  assert (H1 : readlines (updated_content content a)
               = (other_lines (readlines content) ++ [key_line a])%list)
    by now apply readlines_updated_content.
  assert (H2 : after = (other_lines (readlines content) ++ [key_line b])%list).
  { subst after. rewrite readlines_updated_content; auto.
    - rewrite H1. now rewrite other_lines_app_key, other_lines_idempotent.
    - rewrite H1. apply forallb_forall. intros l Hin.
      assert (Hp : forallb proper_line
                     (other_lines (readlines content) ++ [key_line a]) = true).
      { rewrite forallb_app. apply andb_true_iff. split.
        - apply other_lines_proper. now apply readlines_terminated_proper.
        - cbn [forallb]. now rewrite key_line_proper. }
      rewrite forallb_forall in Hp. specialize (Hp l Hin).
      clear - Hp. induction l as [|c rest IH]; [discriminate|].
      cbn [proper_line] in Hp. cbn [terminated].
      destruct (Ascii.eqb c LF) eqn:E.
      + destruct rest; [reflexivity|discriminate].
      + apply andb_true_iff in Hp. destruct Hp as [_ Hp].
        destruct rest; [discriminate|]. now apply IH. }
  split; [exact H2|]. rewrite H2. split.
  - apply key_lines_of_updated.
  - now rewrite other_lines_app_key, other_lines_idempotent.
Qed.

(** C2 (defect in the code).  A [.env] file whose last line has no line
    break: [FOO=bar].  [writelines] adds no separator, so the first update
    glues the new line to the last one: the file then holds no line for the
    key and the line of [FOO] has changed; after the second update the
    file has one line for the key, and the line of [FOO] still carries the
    first URL. *)
Theorem update_env_glues_unterminated_last_line :
  let a := "https://a.ngrok.io" in
  let b := "https://b.ngrok.io" in
  let content := "FOO=bar" in
  readlines content = ["FOO=bar"]
  /\ readlines (updated_content content a)
     = [("FOO=barNGROK_URL=https://a.ngrok.io" ++ newline)%string]
  /\ filter is_key_line (readlines (updated_content content a)) = []
  /\ readlines (updated_content (updated_content content a) b)
     = [("FOO=barNGROK_URL=https://a.ngrok.io" ++ newline)%string; key_line b]
  /\ other_lines (readlines (updated_content (updated_content content a) b))
     <> other_lines (readlines content).
Proof. vm_compute. repeat split. discriminate. Qed.

End WebuiProperties.

(** * Properties of ollama_setup.py *)

Section OllamaProperties.
Import Ollama.

(** ** Readiness polling of the server *)

Lemma server_loop_succeeds env port timeout k :
  forall remaining w,
    k < remaining ->
    (forall i, i < k -> server_ready env (w_count w ChSession + i) = false) ->
    server_ready env (w_count w ChSession + k) = true ->
    exists w',
      wait_for_server_loop env remaining port timeout w = (Ret true, w')
      /\ w_trace w' =
           (w_trace w
              ++ times k [EvSessionGet (server_url port);
                          EvPrint (LogServerWaiting port); EvSleep 1]
              ++ [EvSessionGet (server_url port); EvPrint (LogServerReady port)])%list
      /\ w_count w' ChSession = w_count w ChSession + k + 1
      /\ w_count w' ChExec = w_count w ChExec.
Proof.
  unfold server_ready.
  induction k as [|k IH]; intros remaining w Hk Hfail Hok;
    (destruct remaining as [|rem]; [lia|]).
  - rewrite Nat.add_0_r in Hok. cbn [wait_for_server_loop]. mrun.
    destruct (env_session env (w_count w ChSession)) as [e|s]; [discriminate|].
    mrun. rewrite Hok. eexists. split; [reflexivity|]. cbn.
    rewrite <- !app_assoc. repeat split; auto. lia.
  - pose proof (Hfail 0 (Nat.lt_0_succ k)) as H0. rewrite Nat.add_0_r in H0.
    cbn [wait_for_server_loop]. mrun.
    assert (Hstep : forall w1, w_count w1 ChSession = S (w_count w ChSession) ->
              exists w',
                wait_for_server_loop env rem port timeout w1 = (Ret true, w')
                /\ w_trace w' =
                     (w_trace w1
                        ++ times k [EvSessionGet (server_url port);
                                    EvPrint (LogServerWaiting port); EvSleep 1]
                        ++ [EvSessionGet (server_url port);
                            EvPrint (LogServerReady port)])%list
                /\ w_count w' ChSession = w_count w1 ChSession + k + 1
                /\ w_count w' ChExec = w_count w1 ChExec).
    { intros w1 Hc. apply IH; [lia| |].
      - intros i Hi. rewrite Hc.
        replace (S (w_count w ChSession) + i) with (w_count w ChSession + S i) by lia.
        apply Hfail. lia.
      - rewrite Hc.
        now replace (S (w_count w ChSession) + k) with (w_count w ChSession + S k) by lia. }
    destruct (env_session env (w_count w ChSession)) as [e|s]; mrun.
    + match goal with |- context [wait_for_server_loop env rem port timeout ?w1] =>
        destruct (Hstep w1 eq_refl) as (w' & E & Ht & Hc & Hx) end.
      exists w'. split; [exact E|]. cbn in Ht, Hc, Hx. repeat split; auto.
      * rewrite Ht. cbn [times]. now rewrite <- !app_assoc.
      * lia.
    + rewrite H0. cbn.
      match goal with |- context [wait_for_server_loop env rem port timeout ?w1] =>
        destruct (Hstep w1 eq_refl) as (w' & E & Ht & Hc & Hx) end.
      exists w'. split; [exact E|]. cbn in Ht, Hc, Hx. repeat split; auto.
      * rewrite Ht. cbn [times]. now rewrite <- !app_assoc.
      * lia.
Qed.

Lemma server_loop_exhausted env port timeout remaining :
  forall w,
    (forall i, i < remaining -> server_ready env (w_count w ChSession + i) = false) ->
    exists w',
      wait_for_server_loop env remaining port timeout w = (Ret false, w')
      /\ w_trace w' =
           (w_trace w
              ++ times remaining [EvSessionGet (server_url port);
                                  EvPrint (LogServerWaiting port); EvSleep 1]
              ++ [EvPrint (LogServerNotReady timeout)])%list
      /\ w_count w' ChSession = w_count w ChSession + remaining.
Proof.
  unfold server_ready.
  induction remaining as [|rem IH]; intros w Hfail.
  - eexists. split; [reflexivity|]. cbn. split; auto.
  - pose proof (Hfail 0 (Nat.lt_0_succ rem)) as H0. rewrite Nat.add_0_r in H0.
    cbn [wait_for_server_loop]. mrun.
    assert (Hstep : forall w1, w_count w1 ChSession = S (w_count w ChSession) ->
              exists w',
                wait_for_server_loop env rem port timeout w1 = (Ret false, w')
                /\ w_trace w' =
                     (w_trace w1
                        ++ times rem [EvSessionGet (server_url port);
                                      EvPrint (LogServerWaiting port); EvSleep 1]
                        ++ [EvPrint (LogServerNotReady timeout)])%list
                /\ w_count w' ChSession = w_count w1 ChSession + rem).
    { intros w1 Hc. apply IH.
      intros i Hi. rewrite Hc.
      replace (S (w_count w ChSession) + i) with (w_count w ChSession + S i) by lia.
      apply Hfail. lia. }
    destruct (env_session env (w_count w ChSession)) as [e|s]; mrun.
    + match goal with |- context [wait_for_server_loop env rem port timeout ?w1] =>
        destruct (Hstep w1 eq_refl) as (w' & E & Ht & Hc) end.
      exists w'. split; [exact E|]. cbn in Ht, Hc. split.
      * rewrite Ht. cbn [times]. now rewrite <- !app_assoc.
      * lia.
    + rewrite H0. cbn.
      match goal with |- context [wait_for_server_loop env rem port timeout ?w1] =>
        destruct (Hstep w1 eq_refl) as (w' & E & Ht & Hc) end.
      exists w'. split; [exact E|]. cbn in Ht, Hc. split.
      * rewrite Ht. cbn [times]. now rewrite <- !app_assoc.
      * lia.
Qed.

(** [wait_for_server] returns [True] only after an answer with status 200. *)
Lemma server_loop_true_is_ready env port timeout remaining :
  forall w w',
    wait_for_server_loop env remaining port timeout w = (Ret true, w') ->
    (exists pre, w_trace w' = (pre ++ [EvPrint (LogServerReady port)])%list)
    /\ server_ready env (pred (w_count w' ChSession)) = true
    /\ w_count w' ChExec = w_count w ChExec.
Proof.
  unfold server_ready.
  induction remaining as [|rem IH]; intros w w' H.
  - cbn in H. discriminate.
  - cbn [wait_for_server_loop] in H. revert H. mrun.
    destruct (env_session env (w_count w ChSession)) as [e|s] eqn:E; mrun.
    + intros H. apply IH in H. cbn in H. exact H.
    + destruct (s =? 200)%Z eqn:Es; cbn.
      * intros H. inversion H; subst; clear H. cbn. rewrite E, Es.
        repeat split; auto. eexists. reflexivity.
      * intros H. apply IH in H. cbn in H. exact H.
Qed.

(** ** Port remediation *)

Lemma kill_pids_run env port pids :
  forall w,
    exists o w' evs,
      kill_pids env port pids w = (o, w')
      /\ w_trace w' = (w_trace w ++ evs)%list
      /\ forallb remediation_event evs = true
      /\ forallb (fun e => negb (is_sleep e)) evs = true
      /\ w_count w' ChPort = w_count w ChPort
      /\ w_count w' ChLsof = w_count w ChLsof
      /\ (if kills_succeed env pids (w_count w ChKill)
          then o = Ret tt /\ evs = kill_events port pids
          else exists e, o = Raise e).
Proof.
  induction pids as [|[pid parsed] rest IH]; intros w.
  - exists (Ret tt), w, []. cbn. rewrite app_nil_r. repeat split; auto.
  - cbn [kill_pids kills_succeed]. destruct parsed as [n|].
    + mrun. destruct (env_kill env (w_count w ChKill)) as [e|] eqn:Ek.
      * mrun. eexists _, _, [_; _]. split; [reflexivity|]. cbn.
        rewrite <- !app_assoc. repeat split; auto. now exists e.
      * mrun.
        match goal with |- context [kill_pids env port rest ?w1] =>
          destruct (IH w1) as (o & w' & evs & E & Ht & Hr & Hs & Hp & Hl & Hk) end.
        exists o, w', (EvPrint (LogKilling port pid) :: EvKill n :: evs).
        split; [exact E|]. cbn in Ht, Hp, Hl, Hk. cbn [forallb].
        rewrite Hr, Hs. cbn. repeat split; auto.
        -- rewrite Ht. now rewrite <- !app_assoc.
        -- destruct (kills_succeed env rest (S (w_count w ChKill))).
           ++ destruct Hk as [-> ->]. split; reflexivity.
           ++ exact Hk.
    + mrun. eexists _, _, [_]. split; [reflexivity|]. cbn.
      repeat split; auto. now exists ValueError.
Qed.

(** One remediation pass: one [lsof] run, then kills, log lines and at most
    the cooldown; it always returns, and it sleeps exactly when [lsof] has
    listed something and every kill has gone through. *)
Lemma kill_process_on_port_pass env port w :
  exists w' evs,
    kill_process_on_port env port w = (Ret tt, w')
    /\ w_trace w' = (w_trace w ++ EvExec (lsof_argv port) :: evs)%list
    /\ forallb remediation_event evs = true
    /\ w_count w' ChPort = w_count w ChPort
    /\ w_count w' ChLsof = S (w_count w ChLsof)
    /\ (if remediation_clean env w
        then evs = (kill_events port (listed_pids env (w_count w ChLsof))
                      ++ [EvSleep 2])%list
        else forallb (fun e => negb (is_sleep e)) evs = true).
Proof.
  unfold kill_process_on_port, remediation_clean, listed_pids.
  unfold try_except, bind at 1, run_lsof.
  munfold; cbn -[kill_pids kills_succeed kill_events].
  destruct (env_lsof env (w_count w ChLsof)) as [e|pids] eqn:El.
  - mrun. eexists _, [_]. split; [reflexivity|]. cbn.
    rewrite <- !app_assoc. repeat split; auto.
  - destruct pids as [|p ps].
    + mrun. eexists _, []. split; [reflexivity|]. cbn. repeat split; auto.
    + munfold; cbn -[kill_pids kills_succeed kill_events].
      match goal with |- context [kill_pids env port (p :: ps) ?w1] =>
        destruct (kill_pids_run env port (p :: ps) w1)
          as (o & w' & evs & E & Ht & Hr & Hs & Hp & Hl & Hk) end.
      rewrite E. cbn -[kill_pids kills_succeed kill_events] in Ht, Hp, Hl, Hk.
      destruct (kills_succeed env (p :: ps) (w_count w ChKill)).
      * destruct Hk as [-> ->]. eexists _, _. split; [reflexivity|].
        cbn -[kill_pids kills_succeed kill_events].
        rewrite Ht, Hp, Hl. rewrite <- !app_assoc. repeat split; auto.
        -- rewrite forallb_app, Hr. reflexivity.
      * destruct Hk as [e ->]. cbn -[kill_pids kills_succeed kill_events].
        eexists _, (evs ++ [_])%list.
        split; [reflexivity|]. cbn -[kill_pids kills_succeed kill_events].
        rewrite Ht, Hp, Hl. rewrite <- !app_assoc.
        repeat split; auto.
        -- rewrite forallb_app, Hr. reflexivity.
        -- rewrite forallb_app, Hs. reflexivity.
Qed.

Lemma start_ollama_occupied env w :
  env_port env (w_count w ChPort) = false ->
  start_ollama env w
  = (kill_process_on_port env 11434 ;;
     free <- is_port_free env 11434 ;;
     if negb free then
       print LogPortStillOccupied ;; ret false
     else
       print LogPortFree ;;
       print LogStarting ;;
       emit (EvShell serve_command) ;;
       print LogServeIssued ;;
       wait_for_server env 11434 30)%monad (port_checked w).
Proof.
  intros Hocc. unfold start_ollama, is_port_free, port_checked.
  munfold. cbn -[kill_process_on_port wait_for_server].
  rewrite Hocc. cbn -[kill_process_on_port wait_for_server].
  rewrite <- !app_assoc. reflexivity.
Qed.

(** C7, as the code has it.  When the first check finds port 11434
    occupied, [start_ollama] makes one remediation pass and then checks the
    port exactly once more.  The pass runs [lsof] once; if [lsof] lists
    processes, they are killed in the listed order and, when every kill
    has gone through, the 2-second cooldown follows; if [lsof] lists
    nothing or raises, or a field is no number, or a kill raises, the pass
    ends there without cooldown.  If the second check still finds the port
    occupied, [start_ollama] returns [False] at once: between the two port
    checks and after them there is no [ollama serve] spawned and no further
    check; otherwise the launch goes on. *)
Theorem start_ollama_single_remediation_pass env w :
  env_port env (w_count w ChPort) = false ->
  exists w1 evs,
    kill_process_on_port env 11434 (port_checked w) = (Ret tt, w1)
    /\ w_trace w1 = (w_trace w ++ [EvPrint LogCheckingPort; EvPortProbe 11434]
                       ++ EvExec (lsof_argv 11434) :: evs)%list
    /\ forallb remediation_event evs = true
    /\ w_count w1 ChLsof = S (w_count w ChLsof)
    /\ (if remediation_clean env w
        then evs = (kill_events 11434 (listed_pids env (w_count w ChLsof))
                      ++ [EvSleep 2])%list
        else forallb (fun e => negb (is_sleep e)) evs = true)
    /\ (env_port env (S (w_count w ChPort)) = false ->
        exists w',
          start_ollama env w = (Ret false, w')
          /\ w_trace w' = (w_trace w1 ++ [EvPortProbe 11434;
                                          EvPrint LogPortStillOccupied])%list
          /\ w_count w' ChPort = w_count w ChPort + 2
          /\ w_count w' ChLsof = S (w_count w ChLsof))
    /\ (env_port env (S (w_count w ChPort)) = true ->
        exists w2,
          start_ollama env w = wait_for_server env 11434 30 w2
          /\ w_trace w2 = (w_trace w1 ++ [EvPortProbe 11434; EvPrint LogPortFree;
                                          EvPrint LogStarting; EvShell serve_command;
                                          EvPrint LogServeIssued])%list
          /\ w_count w2 ChPort = w_count w ChPort + 2).
Proof.
  intros Hocc.
  destruct (kill_process_on_port_pass env 11434 (port_checked w))
    as (w1 & evs & E & Ht & Hr & Hp & Hl & Hc).
  exists w1, evs. split; [exact E|].
  cbn [port_checked w_trace w_count channel_eqb] in Ht, Hp, Hl.
  split; [rewrite Ht; now rewrite <- !app_assoc|].
  split; [exact Hr|]. split; [exact Hl|]. split; [exact Hc|].
  split; intros Hsecond;
    rewrite (start_ollama_occupied env w Hocc); unfold bind at 1; rewrite E;
    unfold is_port_free, connect_ex_fails.
  - mrun. rewrite Hp, Hsecond. cbn. eexists. split; [reflexivity|]. cbn.
    rewrite ?Hp, ?Hl. rewrite <- !app_assoc. repeat split; auto. lia.
  - munfold. cbn -[wait_for_server]. rewrite Hp, Hsecond.
    cbn -[wait_for_server].
    eexists. split; [reflexivity|]. cbn.
    rewrite ?Hp. rewrite <- !app_assoc. split; auto. lia.
Qed.

(** ** Post-startup commands *)


Lemma stop_existing_ollama_returns env w :
  exists w1, stop_existing_ollama env w = (Ret tt, w1).
Proof.
  unfold stop_existing_ollama. mrun.
  destruct (env_exec env (w_count w ChExec)) as [e|p]; mrun.
  - destruct (env_exec env (S (w_count w ChExec))); mrun; eexists; reflexivity.
  - destruct (returncode p =? 0)%Z; mrun.
    + destruct (env_exec env (S (w_count w ChExec))); mrun.
      * destruct (env_exec env (S (S (w_count w ChExec)))); mrun; eexists; reflexivity.
      * destruct (env_exec env (S (S (w_count w ChExec)))); mrun.
        -- destruct (env_exec env (S (S (S (w_count w ChExec))))); mrun;
             eexists; reflexivity.
        -- destruct (env_exec env (S (S (S (w_count w ChExec))))); mrun;
             eexists; reflexivity.
    + destruct (env_exec env (S (w_count w ChExec))); mrun; eexists; reflexivity.
Qed.

Lemma print_if_nonempty_run text w :
  print_if_nonempty text w
  = (Ret tt, mkWorld (w_count w) (w_envfile w) (w_trace w ++ surfaced text)).
Proof.
  destruct text; cbn.
  - rewrite app_nil_r. now destruct w.
  - reflexivity.
Qed.


(** The commands that run to their end hand over to the rest of the
    list. *)
Lemma run_commands_app env before :
  forall rest w,
    (forall i, i < List.length before -> completes env (w_count w ChExec + i) = true) ->
    exists w1,
      Ollama.run_commands env (before ++ rest) w = Ollama.run_commands env rest w1
      /\ w_trace w1 = (w_trace w ++ command_events env before (w_count w ChExec))%list
      /\ w_count w1 ChExec = w_count w ChExec + List.length before.
Proof.
  unfold completes. induction before as [|cmd before IH]; intros rest w Hall.
  - exists w. cbn. rewrite app_nil_r. repeat split; auto.
  - pose proof (Hall 0 (Nat.lt_0_succ _)) as H0. rewrite Nat.add_0_r in H0.
    cbn [app Ollama.run_commands command_events]. unfold bind at 1. cbn [print emit].
    unfold bind at 1, subprocess_exec, bind at 1. cbn [tick].
    unfold bind at 1. cbn [emit w_count].
    destruct (env_exec env (w_count w ChExec)) as [e|p]; [discriminate|].
    cbn [of_sum ret]. unfold bind at 1. rewrite print_if_nonempty_run.
    unfold bind at 1. rewrite print_if_nonempty_run.
    match goal with |- context [Ollama.run_commands env (before ++ rest) ?w0] =>
      destruct (IH rest w0) as (w1 & E & Ht & Hc) end.
    + intros i Hi. cbn.
      replace (S (w_count w ChExec + i)) with (w_count w ChExec + S i) by lia.
      apply Hall. cbn. lia.
    + exists w1. split; [exact E|]. cbn in Ht, Hc. split.
      * rewrite Ht. now rewrite <- !app_assoc.
      * cbn. lia.
Qed.



End OllamaProperties.

(** * Readiness polling, both scripts *)

(** C3, as the code has it.  [wait_for_server] (ollama_setup.py) counts
    attempts: it issues one GET per attempt and sleeps one second after
    each failed one; when the first [k] answers ([k] below [timeout]) are
    not a 200 (another status or any exception) and the next one is, it
    returns [True] after [k + 1] GETs; when none of [timeout] answers is a
    200, it returns [False] after exactly [timeout] GETs.
    [wait_for_backend] (webui_setup.py) watches the clock instead: it goes
    on as long as the float difference between the time read at the top of
    the loop and the time read at the start is less than [timeout].  When
    the first [k] tests of the clock pass and the first [k] answers are
    retried (another status or a [RequestException]), then it returns
    [True] after [k + 1] GETs if the next test passes and the next answer
    is a 200, and it returns [False] after exactly [k] GETs if the next
    test does not pass.  [k] is at most [timeout] when [timeout] is at
    least 1, the clock read at the first test is not behind the clock read
    at the start, and every pass of the loop takes at least one second by
    the clock; it can be less. *)
Theorem readiness_polling env :
  (forall port timeout w,
      (forall k,
          k < Z.to_nat timeout ->
          (forall i, i < k -> server_ready env (w_count w ChSession + i) = false) ->
          server_ready env (w_count w ChSession + k) = true ->
          exists w',
            Ollama.wait_for_server env port timeout w = (Ret true, w')
            /\ w_trace w' =
                 (w_trace w
                    ++ times k [EvSessionGet (server_url port);
                                EvPrint (LogServerWaiting port); EvSleep 1]
                    ++ [EvSessionGet (server_url port);
                        EvPrint (LogServerReady port)])%list
            /\ w_count w' ChSession = w_count w ChSession + k + 1)
      /\ ((forall i, i < Z.to_nat timeout ->
                     server_ready env (w_count w ChSession + i) = false) ->
          exists w',
            Ollama.wait_for_server env port timeout w = (Ret false, w')
            /\ w_trace w' =
                 (w_trace w
                    ++ times (Z.to_nat timeout)
                         [EvSessionGet (server_url port);
                          EvPrint (LogServerWaiting port); EvSleep 1]
                    ++ [EvPrint (LogServerNotReady timeout)])%list
            /\ w_count w' ChSession = w_count w ChSession + Z.to_nat timeout))
  /\ (forall url timeout w fuel k,
      let start := env_clock env (w_count w ChClock) in
      let test i := in_window env start timeout (w_count w ChClock + 1 + i) in
      k < fuel ->
      (forall i, i < k -> test i) ->
      (forall i, i < k -> backend_retry env (w_count w ChHttp + i) = true) ->
      (test k ->
       backend_ready env (w_count w ChHttp + k) = true ->
       exists w',
         Webui.wait_for_backend env fuel url timeout w = (Ret true, w')
         /\ w_trace w' =
              (w_trace w ++ EvPrint (LogWaitingBackend url)
                 :: times k [EvGet url; EvSleep 1]
                 ++ [EvGet url; EvPrint LogBackendUp])%list
         /\ w_count w' ChHttp = w_count w ChHttp + k + 1)
      /\ (~ test k ->
          exists w',
            Webui.wait_for_backend env fuel url timeout w = (Ret false, w')
            /\ w_trace w' =
                 (w_trace w ++ EvPrint (LogWaitingBackend url)
                    :: times k [EvGet url; EvSleep 1]
                    ++ [EvPrint LogBackendNotReady])%list
            /\ w_count w' ChHttp = w_count w ChHttp + k)
      /\ ((1 <= timeout)%Z ->
          (start <= env_clock env (w_count w ChClock + 1))%Q ->
          (forall i, env_clock env (w_count w ChClock + 1 + i) + 1
                     <= env_clock env (w_count w ChClock + 1 + S i))%Q ->
          (Z.of_nat k <= timeout)%Z)).
Proof.
  split.
  - intros port timeout w. split.
    + intros k Hk Hfail Hok. unfold Ollama.wait_for_server.
      destruct (server_loop_succeeds env port timeout k (Z.to_nat timeout) w)
        as (w' & E & Ht & Hc & _); auto.
      exists w'. auto.
    + intros Hfail. unfold Ollama.wait_for_server.
      now apply server_loop_exhausted.
  - intros url timeout w fuel k start test Hfuel Hwin Hretry.
    assert (Hclock : forall i, w_count (backend_poll_started w url) ChClock + i
                               = w_count w ChClock + 1 + i) by (intros; cbn; lia).
    split; [|split].
    + intros Hk Hready. rewrite wait_for_backend_unfold.
      destruct (backend_loop_succeeds env url start timeout k fuel
                  (backend_poll_started w url)) as (w' & E & Ht & Hc & _); auto.
      * intros i Hi. rewrite Hclock.
        destruct (Nat.eq_dec i k) as [->|Hne]; [exact Hk|apply Hwin; lia].
      * exists w'. split; [exact E|]. cbn in Ht, Hc. split; auto.
        rewrite Ht. now rewrite <- !app_assoc.
    + intros Hk. rewrite wait_for_backend_unfold.
      destruct (backend_loop_times_out env url start timeout k fuel
                  (backend_poll_started w url)) as (w' & E & Ht & Hc & _); auto.
      * intros i Hi. rewrite Hclock. now apply Hwin.
      * now rewrite Hclock.
      * exists w'. split; [exact E|]. cbn in Ht, Hc. split; auto.
        rewrite Ht. now rewrite <- !app_assoc.
    + intros HT Hstart Hstep.
      apply (window_holds_at_most_timeout env start timeout (w_count w ChClock + 1) k);
        auto.
Qed.

(** * The statements at work on concrete runs *)

(** The watchdog on a tunnel that is lost after one good check: one passing
    cycle with its 15-second sleep, then [False] out of the second. *)
Lemma ngrok_watchdog_lost_after_one_check :
  exists tail w',
    Webui.ngrok_watchdog lost_after_one_check 2 url_a (initial_world None)
      = (Ret false, w')
    /\ w_trace w' =
         (EvPrint (LogWatchdogStart url_a)
            :: passing_cycles 1 url_a ++ EvGet Webui.tunnels_api :: tail)%list
    /\ forallb (fun e => negb (is_sleep e)) tail = true
    /\ w_count w' ChHttp <= 4.
Proof.
  apply (proj1 (proj2 (ngrok_watchdog_fails_on_first_bad_check
                         lost_after_one_check url_a (initial_world None))) 1 2).
  - intros i Hi. assert (i = 0) as -> by lia. reflexivity.
  - apply (fails_omitted _ _ _ (mkResponse 200 (Some [])) []);
      [reflexivity|reflexivity|intros []].
  - lia.
Defined.

(** The provider that refuses four times and opens the tunnel at the fifth
    attempt. *)
Lemma create_ngrok_tunnel_succeeds_on_last_attempt :
  exists w',
    Webui.create_ngrok_tunnel succeeds_on_last_attempt (initial_world None)
      = (Ret (Some (mkTunnel url_a)), w')
    /\ w_trace w' =
         (EvSetAuthToken "token"
            :: failed_attempts succeeds_on_last_attempt 4 0 0
            ++ [EvConnect 8080; EvPrint (LogTunnelEstablished url_a)])%list
    /\ w_count w' ChConnect = 5.
Proof.
  apply (proj1 (create_ngrok_tunnel_bounded_retry succeeds_on_last_attempt
                  (initial_world None) "token" eq_refl
                  ltac:(discriminate)) 4 (mkTunnel url_a)).
  - unfold Webui.max_retries. lia.
  - intros i Hi.
    destruct i as [|[|[|[|i]]]]; try reflexivity. lia.
  - reflexivity.
Defined.

(** No credential: one line is printed and nothing else happens. *)
Lemma create_ngrok_tunnel_no_credential :
  Webui.token_missing (env_token silent) = true
  /\ Webui.create_ngrok_tunnel silent (initial_world None)
     = (Ret None, mkWorld (fun _ => 0) None [EvPrint LogTokenNotSet]).
Proof.
  split; [reflexivity|].
  apply (create_ngrok_tunnel_without_token silent (initial_world None)).
  reflexivity.
Defined.


(** The two error paths of [main]: a backend that is down, and a missing
    credential. *)
Lemma main_error_paths_on_concrete_runs :
  (exists w' evs,
      Webui.main backend_down 3 (initial_world (Some "FOO=bar")) = (Ret tt, w')
      /\ w_envfile w' = Some "FOO=bar"
      /\ w_trace w' = evs
      /\ forall path text, ~ In (EvWriteFile path text) evs)
  /\ (exists w2 evs,
      Webui.main backend_up_no_token 3 (initial_world (Some "FOO=bar")) = (Ret tt, w2)
      /\ w_envfile w2 = Some "FOO=bar"
      /\ w_trace w2 = evs
      /\ forall path text, ~ In (EvWriteFile path text) evs).
Proof.
  split.
  - apply (proj1 (main_error_paths_leave_env_file backend_down 3
                    (initial_world (Some "FOO=bar")))
             (snd (Webui.wait_for_backend backend_down 3 Webui.backend_url 30
                     (initial_world (Some "FOO=bar"))))).
    reflexivity.
  - pose (w0 := initial_world (Some "FOO=bar")).
    pose (w1 := snd (Webui.wait_for_backend backend_up_no_token 3
                       Webui.backend_url 30 w0)).
    exists (snd (Webui.create_ngrok_tunnel backend_up_no_token w1)).
    apply (proj2 (main_error_paths_leave_env_file backend_up_no_token 3 w0) w1).
    + reflexivity.
    + reflexivity.
Defined.

(** Port 11434 held by process 4242, which survives the kill: one [lsof],
    one kill, the cooldown, one more check, and the launch is given up. *)
Lemma start_ollama_port_held :
  exists w',
    Ollama.start_ollama port_held (initial_world None) = (Ret false, w')
    /\ w_trace w' =
         [EvPrint LogCheckingPort; EvPortProbe 11434;
          EvExec (lsof_argv 11434);
          EvPrint (LogKilling 11434 "4242"); EvKill 4242; EvSleep 2;
          EvPortProbe 11434; EvPrint LogPortStillOccupied]
    /\ w_count w' ChPort = 2.
Proof.
  destruct (start_ollama_single_remediation_pass port_held (initial_world None) eq_refl)
    as (w1 & evs & _ & Ht & _ & _ & Hc & Hocc & _).
  destruct (Hocc eq_refl) as (w' & E & Ht' & Hp & _).
  exists w'. split; [exact E|]. split; [|exact Hp].
  rewrite Ht', Ht. cbn in Hc. rewrite Hc. reflexivity.
Defined.

(** C7, counterexample to a cooldown after every occupied port: the port
    is occupied by a process that [lsof] does not list.  Nothing is killed
    and no cooldown elapses between the two checks of the port. *)
Lemma start_ollama_no_cooldown_when_nothing_listed :
  let run := Ollama.start_ollama port_held_unlisted (initial_world None) in
  env_port port_held_unlisted 0 = false
  /\ fst run = Ret false
  /\ w_trace (snd run) =
       [EvPrint LogCheckingPort; EvPortProbe 11434;
        EvExec (lsof_argv 11434);
        EvPortProbe 11434; EvPrint LogPortStillOccupied]
  /\ existsb is_kill (w_trace (snd run)) = false
  /\ existsb is_sleep (w_trace (snd run)) = false.
Proof. vm_compute. repeat split. Qed.



(** Both pollers on concrete runs: the server answers at the second
    request; the backend answers 200 at the third request, one second
    apart. *)
Lemma readiness_polling_on_concrete_runs :
  (exists w',
      Ollama.wait_for_server commands_all_fail 11434 30 (initial_world None)
        = (Ret true, w')
      /\ w_count w' ChSession = 2)
  /\ (exists w',
      Webui.wait_for_backend backend_up_at_third 3 Webui.backend_url 30
        (initial_world None) = (Ret true, w')
      /\ w_count w' ChHttp = 3).
Proof.
  split.
  - destruct (proj1 (proj1 (readiness_polling commands_all_fail) 11434%Z 30%Z
                       (initial_world None)) 1) as (w' & E & _ & Hc).
    + cbn. lia.
    + intros i Hi. assert (i = 0) as -> by lia. reflexivity.
    + reflexivity.
    + exists w'. split; [exact E|exact Hc].
  - destruct (proj2 (readiness_polling backend_up_at_third) Webui.backend_url 30%Z
                (initial_world None) 3 2) as (Hup & _ & _).
    + lia.
    + intros i Hi. unfold in_window.
      destruct i as [|[|i]]; [vm_compute; reflexivity|vm_compute; reflexivity|lia].
    + intros i Hi. destruct i as [|[|i]]; [reflexivity|reflexivity|lia].
    + destruct Hup as (w' & E & _ & Hc).
      * vm_compute. reflexivity.
      * reflexivity.
      * exists w'. split; [exact E|exact Hc].
Defined.

(** The window of [wait_for_backend] is tested on the float difference:
    with the clock at the float 0.7 at the start and at the float 30.7 at
    the first test, the exact difference is less than 30 and the float
    difference is not, and the poller gives up without a request. *)
Lemma wait_for_backend_tests_float_difference :
  let env := clock_at_window_edge in
  let run := Webui.wait_for_backend env 3 Webui.backend_url 30 (initial_world None) in
  (env_clock env 1 - env_clock env 0 < 30)%Q
  /\ (float_sub env (env_clock env 1) (env_clock env 0) == 30)%Q
  /\ fst run = Ret false
  /\ w_trace (snd run) =
       [EvPrint (LogWaitingBackend Webui.backend_url); EvPrint LogBackendNotReady]
  /\ w_count (snd run) ChHttp = 0.
Proof. vm_compute. repeat split. Qed.

(** C3, counterexample to exactly [timeout] probes in [wait_for_backend]:
    the backend refuses every request and each request takes 20 seconds to
    fail.  With [timeout] 30 the poller returns [False] after two GETs, not
    thirty. *)
Lemma wait_for_backend_stops_short_of_timeout_probes :
  let run := Webui.wait_for_backend backend_slow 5 Webui.backend_url 30
               (initial_world None) in
  fst run = Ret false
  /\ w_trace (snd run) =
       [EvPrint (LogWaitingBackend Webui.backend_url);
        EvGet Webui.backend_url; EvSleep 1;
        EvGet Webui.backend_url; EvSleep 1;
        EvPrint LogBackendNotReady]
  /\ w_count (snd run) ChHttp = 2
  /\ w_count (snd run) ChHttp <> Z.to_nat 30.
Proof. vm_compute. repeat split. discriminate. Qed.

(** * Further properties *)

(** ** Reading and rewriting the [.env] file *)

Lemma string_append_assoc (a b c : string) :
  ((a ++ b) ++ c)%string = (a ++ (b ++ c))%string.
Proof. induction a as [|x a IH]; [reflexivity|]. cbn. now rewrite IH. Qed.

Lemma string_append_empty (a : string) : (a ++ EmptyString)%string = a.
Proof. induction a as [|x a IH]; [reflexivity|]. cbn. now rewrite IH. Qed.

Lemma writelines_app (a b : list string) :
  writelines (a ++ b) = (writelines a ++ writelines b)%string.
Proof.
  induction a as [|l ls IH]; [reflexivity|].
  cbn [app writelines fold_right]. fold (writelines (ls ++ b)). rewrite IH.
  fold (writelines ls). symmetry. apply string_append_assoc.
Qed.

Lemma writelines_split_keepends s : writelines (split_keepends s) = s.
Proof.
  unfold writelines. induction s as [|c rest IH]; [reflexivity|].
  cbn [split_keepends]. destruct (Ascii.eqb c LF).
  - cbn. congruence.
  - destruct (split_keepends rest) as [|l ls]; cbn in *; congruence.
Qed.

Lemma universal_newlines_without_cr s :
  no_cr s = true -> universal_newlines false s = s.
Proof.
  induction s as [|c rest IH]; intros H; [reflexivity|].
  cbn [no_cr] in H. apply andb_true_iff in H. destruct H as [Hc Hrest].
  apply negb_true_iff in Hc. cbn [universal_newlines]. rewrite Hc.
  destruct (Ascii.eqb c LF) eqn:E; rewrite (IH Hrest); [|reflexivity].
  apply Ascii.eqb_eq in E. now subst c.
Qed.

(** X1.  Reading the lines of a text and writing them back gives the text as
    text mode delivers it (CR LF and CR turned into LF); a text without CR
    comes back unchanged, whether its last line is terminated or not. *)
Theorem readlines_writelines_round_trip content :
  writelines (readlines content) = universal_newlines false content
  /\ (no_cr content = true -> writelines (readlines content) = content).
Proof.
  unfold readlines. split.
  - apply writelines_split_keepends.
  - intros H. rewrite writelines_split_keepends.
    now apply universal_newlines_without_cr.
Qed.

Lemma other_lines_all lines :
  forallb (fun l => negb (is_key_line l)) lines = true -> other_lines lines = lines.
Proof.
  unfold other_lines. induction lines as [|l ls IH]; intros H; [reflexivity|].
  cbn [forallb] in H. apply andb_true_iff in H. destruct H as [Hl Hls].
  cbn [filter]. rewrite Hl. now rewrite IH.
Qed.

(** X2.  On a file without CR in which no line starts with [NGROK_URL=], an
    update appends the new line to the text as it is and changes nothing
    else: whatever stood in the file is a prefix of the new content. *)
Theorem update_appends_to_file_without_key content url :
  no_cr content = true ->
  forallb (fun l => negb (is_key_line l)) (readlines content) = true ->
  Webui.updated_content content url = (content ++ key_line url)%string.
Proof.
  intros Hcr Hkey. unfold Webui.updated_content.
  rewrite updated_lines_eq, (other_lines_all _ Hkey), writelines_app.
  unfold readlines at 1. rewrite writelines_split_keepends.
  rewrite (universal_newlines_without_cr content Hcr).
  cbn [writelines fold_right]. now rewrite string_append_empty.
Qed.

(** ** More on webui_setup.py *)

Lemma updated_content_twice content url :
  forallb terminated (readlines content) = true ->
  no_line_break url = true ->
  Webui.updated_content (Webui.updated_content content url) url
  = Webui.updated_content content url.
Proof.
  intros Hc Hu. unfold Webui.updated_content at 1.
  rewrite (readlines_updated_content content url Hc Hu).
  rewrite updated_lines_eq, other_lines_app_key, other_lines_idempotent.
  reflexivity.
Qed.

(** X3.  What [main] writes twice it could write once: on a file whose
    lines all end with a line break, a second update for the same URL
    (lines 112-117) leaves the content that the first one (lines 93-99)
    made. *)
Theorem update_env_is_idempotent content url :
  forallb terminated (readlines content) = true ->
  no_line_break url = true ->
  Webui.updated_content (Webui.updated_content content url) url
  = Webui.updated_content content url.
Proof. apply updated_content_twice. Qed.

(** X4.  Once [main] has its first tunnel, the [.env] file names the URL
    of that tunnel in exactly one line, its last one, and keeps its other
    lines in their order, for the rest of the run, however long the
    watchdog loop runs and however it ends (the file had its lines
    terminated, the URL holds no line break). *)
Theorem main_env_file_names_first_url env fuel w w1 w2 t content :
  w_envfile w = Some content ->
  forallb terminated (readlines content) = true ->
  no_line_break (public_url t) = true ->
  Webui.wait_for_backend env fuel Webui.backend_url 30 w = (Ret true, w1) ->
  Webui.create_ngrok_tunnel env w1 = (Ret (Some t), w2) ->
  exists final,
    w_envfile (snd (Webui.main env fuel w)) = Some final
    /\ readlines final
       = (other_lines (readlines content) ++ [key_line (public_url t)])%list
    /\ filter is_key_line (readlines final) = [key_line (public_url t)].
Proof.
  intros Hfile Hterm Hurl H1 H2.
  assert (H3 : w_envfile w2 = Some content).
  { pose proof (proj1 (create_ngrok_tunnel_emits env w1)) as Hc.
    pose proof (proj1 (wait_for_backend_emits env fuel Webui.backend_url 30 w)) as Hb.
    rewrite H2 in Hc. rewrite H1 in Hb. cbn in Hc, Hb. congruence. }
  rewrite (main_enters_loop env fuel w w1 w2 t content H1 H2 H3).
  exists (Webui.updated_content content (public_url t)).
  rewrite (proj1 (watchdog_loop_emits env fuel (public_url t) _)).
  cbn [loop_entry w_envfile]. rewrite (updated_content_twice _ _ Hterm Hurl).
  split; [reflexivity|].
  rewrite (readlines_updated_content content _ Hterm Hurl).
  split; [reflexivity|apply key_lines_of_updated].
Qed.

(** X5.  When there is no [.env] file, [main] gets as far as the tunnel and
    then stops on [FileNotFoundError] at line 94: the tunnel is open, the
    URL is not printed, nothing is written and the watchdog never starts. *)
Theorem main_raises_without_env_file env fuel w w1 w2 t :
  w_envfile w = None ->
  Webui.wait_for_backend env fuel Webui.backend_url 30 w = (Ret true, w1) ->
  Webui.create_ngrok_tunnel env w1 = (Ret (Some t), w2) ->
  Webui.main env fuel w = (Raise FileNotFoundError, w2).
Proof.
  intros Hfile H1 H2.
  assert (H3 : w_envfile w2 = None).
  { pose proof (proj1 (create_ngrok_tunnel_emits env w1)) as Hc.
    pose proof (proj1 (wait_for_backend_emits env fuel Webui.backend_url 30 w)) as Hb.
    rewrite H2 in Hc. rewrite H1 in Hb. cbn in Hc, Hb. congruence. }
  unfold Webui.main. unfold bind at 1. rewrite H1. cbn [negb].
  unfold bind at 1. rewrite H2.
  unfold Webui.update_env, Webui.read_env_lines, bind. now rewrite H3.
Qed.

(** X6.  Unless [wait_for_backend] returns [True], [main] does nothing but
    poll and print: no call to ngrok, no file access, no curl, whether the
    poller returns [False], lets an exception through or is still
    running. *)
Theorem main_needs_backend_before_tunnel env fuel w :
  fst (Webui.wait_for_backend env fuel Webui.backend_url 30 w) <> Ret true ->
  w_envfile (snd (Webui.main env fuel w)) = w_envfile w
  /\ exists evs,
      w_trace (snd (Webui.main env fuel w)) = (w_trace w ++ evs)%list
      /\ forallb before_tunnel_event evs = true.
Proof.
  intros Hnot.
  destruct (wait_for_backend_emits env fuel Webui.backend_url 30 w)
    as (He & evs & Ht & Hp).
  assert (Hweak : forallb before_tunnel_event evs = true).
  { rewrite forallb_forall in *. intros e Hin. specialize (Hp e Hin).
    unfold before_tunnel_event. destruct e as [[]| | | | | | | | | | | | | ];
      try exact Hp; reflexivity. }
  destruct (Webui.wait_for_backend env fuel Webui.backend_url 30 w)
    as [[[|]|e|] w1] eqn:E; cbn in Hnot, He, Ht.
  - congruence.
  - assert (Hm : Webui.main env fuel w
                 = (Ret tt, mkWorld (w_count w1) (w_envfile w1)
                                    (w_trace w1 ++ [EvPrint LogExitNoTunnel])))
      by (unfold Webui.main; unfold bind at 1; rewrite E; reflexivity).
    rewrite Hm. cbn. split; [exact He|].
    exists (evs ++ [EvPrint LogExitNoTunnel])%list.
    rewrite Ht, app_assoc. split; [reflexivity|].
    rewrite forallb_app, Hweak. reflexivity.
  - assert (Hm : Webui.main env fuel w = (Raise e, w1))
      by (unfold Webui.main; unfold bind at 1; rewrite E; reflexivity).
    rewrite Hm. cbn. split; [exact He|]. exists evs. auto.
  - assert (Hm : Webui.main env fuel w = (OutOfFuel, w1))
      by (unfold Webui.main; unfold bind at 1; rewrite E; reflexivity).
    rewrite Hm. cbn. split; [exact He|]. exists evs. auto.
Qed.

(** X7.  [wait_for_backend] returns [True] only right after a GET that was
    answered with status 200. *)
Theorem wait_for_backend_true_is_ready env fuel url timeout w w' :
  Webui.wait_for_backend env fuel url timeout w = (Ret true, w') ->
  w_count w ChHttp < w_count w' ChHttp
  /\ backend_ready env (pred (w_count w' ChHttp)) = true
  /\ exists pre, w_trace w' = (pre ++ [EvGet url; EvPrint LogBackendUp])%list.
Proof.
  rewrite wait_for_backend_unfold.
  change (w_count w ChHttp) with (w_count (backend_poll_started w url) ChHttp).
  generalize (backend_poll_started w url) as w0.
  generalize (env_clock env (w_count w ChClock)) as start.
  clear w. intros start. unfold backend_ready.
  induction fuel as [|f IH]; intros w0 H; [discriminate|].
  cbn [Webui.wait_for_backend_loop] in H. revert H. mrun.
  destruct (Qlt_le_dec _ _); [|discriminate].
  mrun. destruct (env_http env (w_count w0 ChHttp)) as [e|r] eqn:E; mrun.
  - destruct (is_request_exception e); [|discriminate]. cbn.
    intros H. apply IH in H. cbn in H. destruct H as (Hlt & Hr & Hpre).
    split; [lia|]. split; assumption.
  - destruct (status_code r =? 200)%Z eqn:Es; cbn.
    + intros H. inversion H; subst; clear H. cbn. rewrite E, Es.
      split; [lia|]. split; [reflexivity|].
      eexists. rewrite <- app_assoc. reflexivity.
    + intros H. apply IH in H. cbn in H. destruct H as (Hlt & Hr & Hpre).
      split; [lia|]. split; assumption.
Qed.

Lemma backend_loop_bounded env url start timeout n :
  forall fuel w,
    n < fuel ->
    (start + inject_Z timeout - inject_Z (Z.of_nat n)
     <= env_clock env (w_count w ChClock))%Q ->
    (forall i, env_clock env (w_count w ChClock + i) + 1
               <= env_clock env (w_count w ChClock + S i))%Q ->
    (forall i, backend_answers env (w_count w ChHttp + i) = true) ->
    exists b w',
      Webui.wait_for_backend_loop env fuel url start timeout w = (Ret b, w')
      /\ w_count w' ChHttp <= w_count w ChHttp + n.
Proof.
  induction n as [|n IH]; intros fuel w Hfuel Hclock Hstep Hans;
    (destruct fuel as [|f]; [lia|]).
  - rewrite backend_loop_window_closed.
    + eexists _, _. split; [reflexivity|]. cbn. lia.
    + unfold in_window, float_sub. change (inject_Z (Z.of_nat 0)) with 0%Q in Hclock.
      apply Qle_not_lt. apply env_round_int. lra.
  - destruct (Qlt_le_dec (float_sub env (env_clock env (w_count w ChClock)) start)
                (inject_Z timeout)) as [Hin|Hout].
    + destruct (backend_ready env (w_count w ChHttp)) eqn:Hr.
      * destruct (backend_loop_ready env url start timeout f w Hin Hr)
          as (w1 & E & Hc & _).
        exists true, w1. split; [exact E|]. lia.
      * assert (Hretry : backend_retry env (w_count w ChHttp) = true).
        { specialize (Hans 0). rewrite Nat.add_0_r in Hans.
          unfold backend_answers, backend_ready, backend_retry in *.
          destruct (env_http env (w_count w ChHttp)); [exact Hans|].
          now rewrite Hr. }
        destruct (backend_loop_retries env url start timeout f w Hin Hretry)
          as (w1 & E & Hk & Hc & _).
        destruct (IH f w1) as (b & w' & E' & Hb).
        -- lia.
        -- rewrite Hk. specialize (Hstep 0).
           rewrite Nat.add_0_r in Hstep.
           replace (w_count w ChClock + 1) with (S (w_count w ChClock)) in Hstep by lia.
           rewrite Nat2Z.inj_succ in Hclock. unfold Z.succ in Hclock.
           rewrite inject_Z_plus in Hclock. change (inject_Z 1) with 1%Q in Hclock.
           lra.
        -- intros i. rewrite Hk.
           replace (S (w_count w ChClock) + i) with (w_count w ChClock + S i) by lia.
           replace (S (w_count w ChClock) + S i) with (w_count w ChClock + S (S i)) by lia.
           apply Hstep.
        -- intros i. rewrite Hc.
           replace (S (w_count w ChHttp) + i) with (w_count w ChHttp + S i) by lia.
           apply Hans.
        -- exists b, w'. rewrite E. split; [exact E'|]. lia.
    + rewrite backend_loop_window_closed.
      * eexists _, _. split; [reflexivity|]. cbn. lia.
      * unfold in_window. now apply Qle_not_lt.
Qed.

(** X8.  [wait_for_backend] is a wait of bounded length: when the clock
    does not run backwards between the start and the first test, every
    pass of the loop takes at least one second, and [requests.get] only
    ever returns or raises a [RequestException], the poller returns after
    at most [timeout] GETs ([timeout] not negative). *)
Theorem wait_for_backend_returns_within_timeout env fuel url timeout w :
  (0 <= timeout)%Z ->
  Z.to_nat timeout < fuel ->
  (env_clock env (w_count w ChClock) <= env_clock env (w_count w ChClock + 1))%Q ->
  (forall i, env_clock env (w_count w ChClock + 1 + i) + 1
             <= env_clock env (w_count w ChClock + 1 + S i))%Q ->
  (forall i, backend_answers env (w_count w ChHttp + i) = true) ->
  exists b w',
    Webui.wait_for_backend env fuel url timeout w = (Ret b, w')
    /\ w_count w' ChHttp <= w_count w ChHttp + Z.to_nat timeout.
Proof.
  intros HT Hfuel Hstart Hstep Hans. rewrite wait_for_backend_unfold.
  destruct (backend_loop_bounded env url (env_clock env (w_count w ChClock)) timeout
              (Z.to_nat timeout) fuel (backend_poll_started w url))
    as (b & w' & E & Hb); auto.
  - cbn. rewrite Z2Nat.id by exact HT.
    replace (S (w_count w ChClock)) with (w_count w ChClock + 1) by lia. lra.
  - intros i. cbn.
    replace (S (w_count w ChClock + i)) with (w_count w ChClock + 1 + i) by lia.
    replace (S (w_count w ChClock + S i)) with (w_count w ChClock + 1 + S i) by lia.
    apply Hstep.
  - exists b, w'. split; [exact E|exact Hb].
Qed.

Lemma connect_attempts_outcome env remaining :
  forall attempt w,
    exists r w',
      Webui.connect_attempts env remaining attempt w = (Ret r, w')
      /\ w_count w' ChConnect <= w_count w ChConnect + remaining
      /\ match r with
         | Some t =>
             w_count w ChConnect < w_count w' ChConnect
             /\ env_connect env (pred (w_count w' ChConnect)) = inr t
         | None =>
             w_count w' ChConnect = w_count w ChConnect + remaining
             /\ forall i, i < remaining ->
                          connect_fails env (w_count w ChConnect + i) = true
         end.
Proof.
  induction remaining as [|rem IH]; intros attempt w.
  - eexists None, _. split; [reflexivity|]. cbn. repeat split; try lia.
  - cbn [Webui.connect_attempts]. mrun.
    destruct (env_connect env (w_count w ChConnect)) as [e|t] eqn:E; mrun.
    + match goal with |- context [Webui.connect_attempts env rem (S attempt) ?w1] =>
        destruct (IH (S attempt) w1) as (r & w' & E' & Hle & Hr) end.
      exists r, w'. split; [exact E'|]. cbn in Hle, Hr. split; [lia|].
      destruct r as [t|].
      * destruct Hr as [Hlt Hlast]. split; [lia|exact Hlast].
      * destruct Hr as [Hc Hall]. split; [lia|].
        intros i Hi. destruct i as [|i].
        -- rewrite Nat.add_0_r. unfold connect_fails. now rewrite E.
        -- replace (w_count w ChConnect + S i) with (S (w_count w ChConnect) + i) by lia.
           apply Hall. lia.
    + eexists (Some t), _. split; [reflexivity|]. cbn. rewrite E.
      split; [lia|]. split; [lia|reflexivity].
Qed.

(** X9.  [create_ngrok_tunnel] never calls [ngrok.connect] more than five
    times, however it ends.  When it returns a tunnel, the credential was
    present and the tunnel is the one that its last call of
    [ngrok.connect] returned; when it returns [None], either the credential
    is missing and no call was made, or all five calls have raised. *)
Theorem create_ngrok_tunnel_outcome env w :
  w_count (snd (Webui.create_ngrok_tunnel env w)) ChConnect
    <= w_count w ChConnect + Webui.max_retries
  /\ forall r w',
      Webui.create_ngrok_tunnel env w = (Ret r, w') ->
      match r with
      | Some t =>
          Webui.token_missing (env_token env) = false
          /\ w_count w ChConnect < w_count w' ChConnect
          /\ env_connect env (pred (w_count w' ChConnect)) = inr t
      | None =>
          (Webui.token_missing (env_token env) = true
           /\ w_count w' ChConnect = w_count w ChConnect)
          \/ (w_count w' ChConnect = w_count w ChConnect + Webui.max_retries
              /\ forall i, i < Webui.max_retries ->
                           connect_fails env (w_count w ChConnect + i) = true)
      end.
Proof.
  unfold Webui.create_ngrok_tunnel, os_getenv_token, bind, ret.
  destruct (Webui.token_missing (env_token env)) eqn:Htok.
  - split; [cbn; lia|]. intros r w' E. inversion E; subst. left. auto.
  - cbn [emit].
    match goal with |- context [Webui.connect_attempts env _ 0 ?w1] =>
      destruct (connect_attempts_outcome env Webui.max_retries 0 w1)
        as (r0 & w0 & E0 & Hle & Hr) end.
    rewrite E0. cbn [w_count snd] in *. split; [exact Hle|].
    intros r w' E. inversion E; subst.
    destruct r as [t|]; [split; [reflexivity|exact Hr]|right; exact Hr].
Qed.

(** X10.  When the provider's list does not hold the expected URL, the
    watchdog returns [False] after that one GET: the public URL itself is
    not requested, and the status code of the provider's answer plays no
    part. *)
Theorem ngrok_watchdog_missing_url_is_not_probed env fuel url w r urls :
  env_http env (w_count w ChHttp) = inr r ->
  tunnel_urls r = Some urls ->
  ~ In url urls ->
  exists w',
    Webui.ngrok_watchdog env (S fuel) url w = (Ret false, w')
    /\ w_trace w' =
         (w_trace w ++ [EvPrint (LogWatchdogStart url);
                        EvGet Webui.tunnels_api;
                        EvPrint (LogTunnelMissing url)])%list
    /\ w_count w' ChHttp = S (w_count w ChHttp).
Proof.
  intros E1 E2 Hn.
  assert (Hex : existsb (String.eqb url) urls = false).
  { destruct (existsb (String.eqb url) urls) eqn:Ex; [|reflexivity].
    apply existsb_eqb_In in Ex. contradiction. }
  unfold Webui.ngrok_watchdog. cbn [Webui.ngrok_watchdog_loop]. mrun.
  rewrite E1. mrun. rewrite E2. cbn. rewrite Hex. cbn.
  eexists. split; [reflexivity|]. cbn. rewrite <- !app_assoc. auto.
Qed.

(** ** Collaborators that a computation leaves alone *)













(** ** More on ollama_setup.py *)

(** X11.  The loop of [main] returns only by its [break]: whenever it
    returns, a run of [ngrok_watchdog] has returned [False], the tunnel has
    been disconnected (a failing [ngrok.disconnect] is caught and
    reported), [create_ngrok_tunnel] has then returned [None], and the last
    thing printed is that the tunnel could not be recreated. *)
Theorem watchdog_loop_returns_after_failed_reconnect env url fuel :
  forall w w',
    Webui.watchdog_loop env fuel url w = (Ret tt, w') ->
    exists f w0 w1 w2,
      Webui.ngrok_watchdog env f url w0 = (Ret false, w1)
      /\ Webui.create_ngrok_tunnel env (disconnected env w1 url) = (Ret None, w2)
      /\ w_trace w' = (w_trace w2 ++ [EvPrint LogCouldNotRecreate])%list.
Proof.
  induction fuel as [|f IH]; intros w w' H; [discriminate|].
  pose proof (ngrok_watchdog_outcome env url f w) as Hout.
  destruct (Webui.ngrok_watchdog env f url w) as [[[|]|e|] w1] eqn:Hw; cbn in Hout.
  - destruct Hout; discriminate.
  - destruct (create_ngrok_tunnel_returns env (disconnected env w1 url))
      as (r & w2 & Hc).
    rewrite (watchdog_loop_turn env f url w w1 Hw r w2 Hc) in H.
    destruct r as [t|].
    + now apply IH in H.
    + inversion H; subst. exists f, w, w1, w2. repeat split; auto.
  - destruct Hout; discriminate.
  - cbn [Webui.watchdog_loop] in H. unfold bind at 1 in H. rewrite Hw in H.
    discriminate.
Qed.

(** X12.  [stop_existing_ollama] swallows every error and always ends with
    its 2-second sleep.  It asks [systemctl is-active] first; it runs
    [systemctl stop] only when that ended with return code 0, and
    [systemctl disable] only when the stop could be run; whatever happened
    to systemd, it then runs [pkill]. *)
Theorem stop_existing_ollama_sequence env w :
  exists w1 evs,
    Ollama.stop_existing_ollama env w = (Ret tt, w1)
    /\ w_trace w1 = (w_trace w ++ evs)%list
    /\ last evs (EvSleep 0) = EvSleep 2
    /\ executed evs =
         (is_active_argv
            :: (if service_active env (w_count w ChExec)
                then stop_argv
                       :: (if completes env (S (w_count w ChExec))
                           then [disable_argv] else [])
                else [])
            ++ [pkill_argv])%list.
Proof.
  unfold Ollama.stop_existing_ollama, service_active, completes. mrun.
  destruct (env_exec env (w_count w ChExec)) as [e|p]; mrun.
  - destruct (env_exec env (S (w_count w ChExec))); mrun;
      eexists _, _; (split; [reflexivity|]); cbn [w_trace];
      rewrite <- !app_assoc; (split; [reflexivity|]); cbn; auto.
  - destruct (returncode p =? 0)%Z; mrun.
    + destruct (env_exec env (S (w_count w ChExec))); mrun.
      * destruct (env_exec env (S (S (w_count w ChExec)))); mrun;
          eexists _, _; (split; [reflexivity|]); cbn [w_trace];
          rewrite <- !app_assoc; (split; [reflexivity|]); cbn; auto.
      * destruct (env_exec env (S (S (w_count w ChExec)))); mrun;
          (destruct (env_exec env (S (S (S (w_count w ChExec))))); mrun);
          eexists _, _; (split; [reflexivity|]); cbn [w_trace];
          rewrite <- !app_assoc; (split; [reflexivity|]); cbn; auto.
    + destruct (env_exec env (S (w_count w ChExec))); mrun;
        eexists _, _; (split; [reflexivity|]); cbn [w_trace];
        rewrite <- !app_assoc; (split; [reflexivity|]); cbn; auto.
Qed.

Lemma kill_pids_app env port before :
  forall rest w,
    kills_succeed env before (w_count w ChKill) = true ->
    exists w1,
      Ollama.kill_pids env port (before ++ rest) w = Ollama.kill_pids env port rest w1
      /\ w_trace w1 = (w_trace w ++ kill_events port before)%list
      /\ w_count w1 ChKill = w_count w ChKill + List.length before.
Proof.
  induction before as [|[pid parsed] before IH]; intros rest w H.
  - exists w. cbn. rewrite app_nil_r. repeat split; auto.
  - cbn [kills_succeed] in H. destruct parsed as [n|]; [|discriminate].
    destruct (env_kill env (w_count w ChKill)) eqn:Ek; [discriminate|].
    cbn [app Ollama.kill_pids]. mrun. rewrite Ek. mrun.
    match goal with |- context [Ollama.kill_pids env port (before ++ rest) ?w0] =>
      destruct (IH rest w0 H) as (w1 & E & Ht & Hc) end.
    exists w1. split; [exact E|]. cbn in Ht, Hc. split.
    + rewrite Ht. cbn. now rewrite <- !app_assoc.
    + cbn. lia.
Qed.

(** X13.  A remediation pass that cannot kill one of the listed processes
    gives up there: the processes listed before it are killed, the failure
    is logged, the processes listed after it are left alone and there is
    no cooldown; [kill_process_on_port] itself returns normally. *)
Theorem kill_process_on_port_gives_up_at_first_failure
        env port w before pid n after e :
  env_lsof env (w_count w ChLsof) = LsofFields (before ++ (pid, Some n) :: after) ->
  kills_succeed env before (w_count w ChKill) = true ->
  env_kill env (w_count w ChKill + List.length before) = Some e ->
  exists w',
    Ollama.kill_process_on_port env port w = (Ret tt, w')
    /\ w_trace w' =
         (w_trace w ++ EvExec (lsof_argv port) :: kill_events port before
            ++ [EvPrint (LogKilling port pid); EvKill n;
                EvPrint (LogKillFailed port e)])%list
    /\ w_count w' ChKill = w_count w ChKill + List.length before + 1.
Proof.
  intros Hl Hk He. unfold Ollama.kill_process_on_port.
  unfold try_except, bind at 1, run_lsof.
  munfold; cbn -[Ollama.kill_pids kills_succeed kill_events]. rewrite Hl.
  assert (Hne : exists p ps, (before ++ (pid, Some n) :: after)%list = p :: ps).
  { destruct before; eexists _, _; reflexivity. }
  destruct Hne as (p & ps & Hne). rewrite Hne.
  munfold; cbn -[Ollama.kill_pids kills_succeed kill_events]. rewrite <- Hne.
  match goal with |- context [Ollama.kill_pids env port _ ?w0] =>
    destruct (kill_pids_app env port before ((pid, Some n) :: after) w0 Hk)
      as (w1 & E & Ht & Hc) end.
  rewrite E. cbn [Ollama.kill_pids]. mrun. cbn in Hc. rewrite Hc, He. mrun.
  eexists. split; [reflexivity|]. cbn. cbn in Ht. rewrite Ht, ?Hc.
  rewrite <- !app_assoc. split; [reflexivity|lia].
Qed.

Lemma server_loop_returns env port timeout remaining :
  forall w,
    exists b w',
      Ollama.wait_for_server_loop env remaining port timeout w = (Ret b, w')
      /\ w_count w' ChSession <= w_count w ChSession + remaining.
Proof.
  induction remaining as [|rem IH]; intros w.
  - eexists _, _. split; [reflexivity|]. cbn. lia.
  - cbn [Ollama.wait_for_server_loop]. mrun.
    destruct (env_session env (w_count w ChSession)) as [e|s]; mrun.
    + match goal with |- context [Ollama.wait_for_server_loop env rem port timeout ?w1] =>
        destruct (IH w1) as (b & w' & E & Hc) end.
      exists b, w'. split; [exact E|]. cbn in Hc. lia.
    + destruct (s =? 200)%Z; cbn.
      * eexists _, _. split; [reflexivity|]. cbn. lia.
      * match goal with |- context [Ollama.wait_for_server_loop env rem port timeout ?w1] =>
          destruct (IH w1) as (b & w' & E & Hc) end.
        exists b, w'. split; [exact E|]. cbn in Hc. lia.
Qed.

(** X14.  [wait_for_server] never raises, whatever the requests do, and
    never sends more than [timeout] requests; it returns [True] only right
    after an answer with status 200; with a [timeout] of zero or less it
    returns [False] at once, without any request and without waiting. *)
Theorem wait_for_server_outcome env port timeout w :
  (exists b w',
      Ollama.wait_for_server env port timeout w = (Ret b, w')
      /\ w_count w' ChSession <= w_count w ChSession + Z.to_nat timeout
      /\ (b = true -> server_ready env (pred (w_count w' ChSession)) = true))
  /\ ((timeout <= 0)%Z ->
      Ollama.wait_for_server env port timeout w
      = (Ret false,
         mkWorld (w_count w) (w_envfile w)
                 (w_trace w ++ [EvPrint (LogServerNotReady timeout)]))).
Proof.
  unfold Ollama.wait_for_server. split.
  - destruct (server_loop_returns env port timeout (Z.to_nat timeout) w)
      as (b & w' & E & Hc).
    exists b, w'. split; [exact E|]. split; [exact Hc|].
    intros ->. now apply (server_loop_true_is_ready env port timeout _ w w' E).
  - intros H. replace (Z.to_nat timeout) with 0 by lia. reflexivity.
Qed.

(** X15.  When the first check finds port 11434 free, [start_ollama] kills
    nothing: it runs no [lsof] and goes straight to the second check.  If
    that one finds the port taken in the meantime, the launch is given up
    all the same; otherwise [ollama serve] is spawned once and the server
    is polled. *)
Theorem start_ollama_on_free_port env w :
  env_port env (w_count w ChPort) = true ->
  (env_port env (S (w_count w ChPort)) = false ->
   exists w',
     Ollama.start_ollama env w = (Ret false, w')
     /\ w_trace w' =
          (w_trace w ++ [EvPrint LogCheckingPort; EvPortProbe 11434;
                         EvPortProbe 11434; EvPrint LogPortStillOccupied])%list
     /\ w_count w' ChLsof = w_count w ChLsof
     /\ w_count w' ChKill = w_count w ChKill)
  /\ (env_port env (S (w_count w ChPort)) = true ->
      exists w2,
        Ollama.start_ollama env w = Ollama.wait_for_server env 11434 30 w2
        /\ w_trace w2 =
             (w_trace w ++ [EvPrint LogCheckingPort; EvPortProbe 11434;
                            EvPortProbe 11434; EvPrint LogPortFree;
                            EvPrint LogStarting; EvShell Ollama.serve_command;
                            EvPrint LogServeIssued])%list
        /\ w_count w2 ChLsof = w_count w ChLsof
        /\ w_count w2 ChKill = w_count w ChKill).
Proof.
  intros Hfree. split; intros Hsecond;
    unfold Ollama.start_ollama, Ollama.is_port_free;
    munfold; cbn -[Ollama.wait_for_server];
    rewrite Hfree; cbn -[Ollama.wait_for_server];
    rewrite Hsecond; cbn -[Ollama.wait_for_server];
    eexists; (split; [reflexivity|]); cbn;
    rewrite <- !app_assoc; auto.
Qed.

(** X16.  [run_ollama_commands] catches nothing: when a subprocess cannot be
    created or awaited, the exception leaves the function.  The commands
    before it have run, the failing one has been announced, and the
    commands after it are neither announced nor run. *)
Theorem run_commands_stops_at_first_exception env before cmd after w e :
  (forall i, i < List.length before -> completes env (w_count w ChExec + i) = true) ->
  env_exec env (w_count w ChExec + List.length before) = inl e ->
  exists w',
    Ollama.run_commands env (before ++ cmd :: after) w = (Raise e, w')
    /\ w_trace w' =
         (w_trace w ++ command_events env before (w_count w ChExec)
            ++ [EvPrint (LogExecuting cmd); EvExec cmd])%list
    /\ w_count w' ChExec = w_count w ChExec + List.length before + 1.
Proof.
  intros Hall He.
  destruct (run_commands_app env before (cmd :: after) w Hall) as (w1 & E & Ht & Hc).
  rewrite E. cbn [Ollama.run_commands]. mrun. rewrite Hc, He. mrun.
  eexists. split; [reflexivity|]. cbn. rewrite Ht, ?Hc.
  rewrite <- !app_assoc. split; [reflexivity|lia].
Qed.

Lemma remediation_events_launch_nothing evs :
  forallb remediation_event evs = true ->
  forallb no_launch evs = true /\ executed evs = [].
Proof.
  induction evs as [|e evs IH]; intros H; [split; reflexivity|].
  cbn [forallb] in H. apply andb_true_iff in H. destruct H as [He Hrest].
  destruct (IH Hrest) as [Hn Hx]. unfold executed in *. cbn [forallb flat_map].
  rewrite Hn, Hx.
  destruct e as [[]| | | | | | | | | | | | | ]; try discriminate; split; reflexivity.
Qed.

(** X17.  When port 11434 is occupied and still occupied after the
    remediation pass, [main] of ollama_setup.py returns normally without
    having spawned [ollama serve], polled the server or run any of the
    post-startup commands: the only subprocess after the cleanup is the one
    [lsof], and the last thing it does is to say that the commands are
    skipped. *)
Theorem main_gives_up_when_port_stays_occupied env w :
  let w1 := snd (Ollama.stop_existing_ollama env w) in
  env_port env (w_count w1 ChPort) = false ->
  env_port env (S (w_count w1 ChPort)) = false ->
  exists w' evs,
    Ollama.main env w = (Ret tt, w')
    /\ w_trace w' = (w_trace w1 ++ evs)%list
    /\ forallb no_launch evs = true
    /\ executed evs = [lsof_argv 11434]
    /\ last evs (EvSleep 0) = EvPrint LogSkipCommands.
Proof.
  intros w1 Hfirst Hsecond. subst w1.
  destruct (stop_existing_ollama_returns env w) as (w1 & Hstop).
  rewrite Hstop in *. cbn [snd] in *.
  destruct (kill_process_on_port_pass env 11434 (port_checked w1))
    as (w2 & evs & E & Ht & Hr & Hp & _).
  cbn [port_checked w_trace w_count channel_eqb] in Ht, Hp.
  destruct (remediation_events_launch_nothing evs Hr) as [Hn Hx].
  assert (Hstart : Ollama.start_ollama env w1
                   = (Ret false,
                      mkWorld (fun c => if channel_eqb ChPort c
                                        then S (w_count w2 ChPort) else w_count w2 c)
                              (w_envfile w2)
                              (w_trace w2 ++ [EvPortProbe 11434;
                                              EvPrint LogPortStillOccupied]))).
  { rewrite (start_ollama_occupied env w1 Hfirst). unfold bind at 1. rewrite E.
    unfold Ollama.is_port_free. mrun. rewrite Hp, Hsecond. cbn.
    now rewrite <- !app_assoc. }
  eexists _, (EvPrint LogCheckingPort :: EvPortProbe 11434
                :: EvExec (lsof_argv 11434)
                :: evs ++ [EvPortProbe 11434; EvPrint LogPortStillOccupied;
                           EvPrint LogSkipCommands])%list.
  split.
  - unfold Ollama.main. unfold bind at 1. rewrite Hstop.
    unfold bind at 1. rewrite Hstart. reflexivity.
  - cbn [w_trace]. rewrite Ht. split.
    + rewrite <- !app_assoc. reflexivity.
    + split; [|split].
      * cbn [forallb no_launch]. rewrite forallb_app, Hn. reflexivity.
      * unfold executed in *. cbn [flat_map]. rewrite flat_map_app, Hx. reflexivity.
      * clear. induction evs as [|x evs IH]; [reflexivity|].
        destruct evs; [reflexivity|]. exact IH.
Qed.


(** ** The further statements at work on concrete runs *)

Lemma round_trip_on_unterminated_file :
  writelines (readlines "FOO=bar") = "FOO=bar".
Proof.
  apply (proj2 (readlines_writelines_round_trip "FOO=bar")). reflexivity.
Defined.

Lemma update_appends_on_unterminated_file :
  Webui.updated_content "FOO=bar" url_a = ("FOO=bar" ++ key_line url_a)%string.
Proof.
  apply (update_appends_to_file_without_key "FOO=bar" url_a); reflexivity.
Defined.

Lemma main_env_file_on_concrete_run :
  exists final,
    w_envfile (snd (Webui.main replaced_once 3
                      (initial_world (Some ("FOO=bar" ++ newline)%string))))
    = Some final
    /\ readlines final
       = [("FOO=bar" ++ newline)%string; key_line "https://a.ngrok.io"]
    /\ filter is_key_line (readlines final) = [key_line "https://a.ngrok.io"].
Proof.
  set (w0 := initial_world (Some ("FOO=bar" ++ newline)%string)).
  pose (w1 := snd (Webui.wait_for_backend replaced_once 3 Webui.backend_url 30 w0)).
  pose (w2 := snd (Webui.create_ngrok_tunnel replaced_once w1)).
  assert (H1 : Webui.wait_for_backend replaced_once 3 Webui.backend_url 30 w0
               = (Ret true, w1)) by (vm_compute; reflexivity).
  assert (H2 : Webui.create_ngrok_tunnel replaced_once w1
               = (Ret (Some (mkTunnel "https://a.ngrok.io")), w2))
    by (vm_compute; reflexivity).
  apply (main_env_file_names_first_url replaced_once 3 w0 w1 w2
           (mkTunnel "https://a.ngrok.io") ("FOO=bar" ++ newline)%string
           eq_refl eq_refl eq_refl H1 H2).
Defined.

Lemma update_env_twice_on_one_line_file :
  let content := ("FOO=bar" ++ newline)%string in
  Webui.updated_content (Webui.updated_content content url_a) url_a
  = Webui.updated_content content url_a.
Proof.
  apply (update_env_is_idempotent ("FOO=bar" ++ newline)%string url_a); reflexivity.
Defined.

Lemma main_without_env_file_on_concrete_run :
  fst (Webui.main replaced_once 3 (initial_world None)) = Raise FileNotFoundError.
Proof.
  set (w0 := initial_world None).
  pose (w1 := snd (Webui.wait_for_backend replaced_once 3 Webui.backend_url 30 w0)).
  pose (w2 := snd (Webui.create_ngrok_tunnel replaced_once w1)).
  assert (H1 : Webui.wait_for_backend replaced_once 3 Webui.backend_url 30 w0
               = (Ret true, w1)) by (vm_compute; reflexivity).
  assert (H2 : Webui.create_ngrok_tunnel replaced_once w1
               = (Ret (Some (mkTunnel "https://a.ngrok.io")), w2))
    by (vm_compute; reflexivity).
  rewrite (main_raises_without_env_file replaced_once 3 w0 w1 w2 _ eq_refl H1 H2).
  reflexivity.
Defined.

Lemma main_with_backend_down_on_concrete_run :
  w_envfile (snd (Webui.main backend_down 3 (initial_world (Some "FOO=bar"))))
  = Some "FOO=bar".
Proof.
  apply (proj1 (main_needs_backend_before_tunnel backend_down 3
                  (initial_world (Some "FOO=bar"))
                  ltac:(vm_compute; discriminate))).
Defined.

Lemma wait_for_backend_ready_at_third :
  backend_ready backend_up_at_third
    (pred (w_count (snd (Webui.wait_for_backend backend_up_at_third 3
                           Webui.backend_url 30 (initial_world None))) ChHttp))
  = true.
Proof.
  pose (w0 := initial_world None).
  pose (w' := snd (Webui.wait_for_backend backend_up_at_third 3
                     Webui.backend_url 30 w0)).
  assert (E : Webui.wait_for_backend backend_up_at_third 3 Webui.backend_url 30 w0
              = (Ret true, w')) by (vm_compute; reflexivity).
  exact (proj1 (proj2 (wait_for_backend_true_is_ready backend_up_at_third 3
                         Webui.backend_url 30 w0 w' E))).
Defined.

Lemma wait_for_backend_bounded_on_concrete_run :
  exists b w',
    Webui.wait_for_backend backend_up_at_third 31 Webui.backend_url 30
      (initial_world None) = (Ret b, w')
    /\ w_count w' ChHttp <= 30.
Proof.
  apply (wait_for_backend_returns_within_timeout backend_up_at_third 31
           Webui.backend_url 30 (initial_world None)).
  - lia.
  - cbn. lia.
  - vm_compute. discriminate.
  - intros i. cbn [initial_world w_count backend_up_at_third env_clock Nat.add pred].
    rewrite Nat2Z.inj_succ. unfold Z.succ. rewrite inject_Z_plus.
    change (inject_Z 1) with 1%Q. lra.
  - intros i. unfold backend_answers. cbn.
    destruct (i <=? 1)%nat; reflexivity.
Defined.

Lemma create_ngrok_tunnel_outcome_on_last_attempt :
  exists t w',
    Webui.create_ngrok_tunnel succeeds_on_last_attempt (initial_world None)
      = (Ret (Some t), w')
    /\ w_count w' ChConnect <= 5
    /\ env_connect succeeds_on_last_attempt (pred (w_count w' ChConnect)) = inr t.
Proof.
  pose (w0 := initial_world None).
  pose (w' := snd (Webui.create_ngrok_tunnel succeeds_on_last_attempt w0)).
  assert (E : Webui.create_ngrok_tunnel succeeds_on_last_attempt w0
              = (Ret (Some (mkTunnel url_a)), w')) by (vm_compute; reflexivity).
  destruct (create_ngrok_tunnel_outcome succeeds_on_last_attempt w0) as [Hle Hret].
  destruct (Hret (Some (mkTunnel url_a)) w' E) as (_ & _ & Hlast).
  exists (mkTunnel url_a), w'. split; [exact E|]. split; [exact Hle|exact Hlast].
Defined.

Lemma watchdog_loop_ends_without_credential :
  exists f w0 w1 w2,
    Webui.ngrok_watchdog silent f url_a w0 = (Ret false, w1)
    /\ Webui.create_ngrok_tunnel silent (disconnected silent w1 url_a) = (Ret None, w2)
    /\ w_trace (snd (Webui.watchdog_loop silent 2 url_a (initial_world None)))
       = (w_trace w2 ++ [EvPrint LogCouldNotRecreate])%list.
Proof.
  pose (w0 := initial_world None).
  pose (w' := snd (Webui.watchdog_loop silent 2 url_a w0)).
  assert (E : Webui.watchdog_loop silent 2 url_a w0 = (Ret tt, w'))
    by (vm_compute; reflexivity).
  exact (watchdog_loop_returns_after_failed_reconnect silent url_a 2 w0 w' E).
Defined.

Lemma ngrok_watchdog_on_empty_list :
  exists w',
    Webui.ngrok_watchdog replaced_once 1 url_a after_one_get = (Ret false, w')
    /\ w_trace w' = [EvPrint (LogWatchdogStart url_a);
                     EvGet Webui.tunnels_api;
                     EvPrint (LogTunnelMissing url_a)]
    /\ w_count w' ChHttp = 2.
Proof.
  apply (ngrok_watchdog_missing_url_is_not_probed replaced_once 0 url_a after_one_get
           (mkResponse 200 (Some [])) []).
  - reflexivity.
  - reflexivity.
  - intros [].
Defined.

Lemma kill_process_on_port_second_kill_denied :
  exists w',
    Ollama.kill_process_on_port second_kill_denied 11434 (initial_world None)
      = (Ret tt, w')
    /\ w_trace w' =
         [EvExec (lsof_argv 11434);
          EvPrint (LogKilling 11434 "4242"); EvKill 4242;
          EvPrint (LogKilling 11434 "4243"); EvKill 4243;
          EvPrint (LogKillFailed 11434 OSError)]
    /\ w_count w' ChKill = 2.
Proof.
  apply (kill_process_on_port_gives_up_at_first_failure second_kill_denied 11434
           (initial_world None) [("4242", Some 4242%Z)] "4243" 4243%Z
           [("4244", Some 4244%Z)] OSError); reflexivity.
Defined.

Lemma wait_for_server_with_zero_timeout :
  Ollama.wait_for_server silent 11434 0 (initial_world None)
  = (Ret false, mkWorld (fun _ => 0) None [EvPrint (LogServerNotReady 0)]).
Proof.
  apply (proj2 (wait_for_server_outcome silent 11434 0 (initial_world None))). lia.
Defined.

Lemma start_ollama_port_taken_between_checks :
  exists w',
    Ollama.start_ollama port_taken_between_checks (initial_world None)
      = (Ret false, w')
    /\ w_trace w' = [EvPrint LogCheckingPort; EvPortProbe 11434;
                     EvPortProbe 11434; EvPrint LogPortStillOccupied]
    /\ w_count w' ChLsof = 0
    /\ w_count w' ChKill = 0.
Proof.
  apply (proj1 (start_ollama_on_free_port port_taken_between_checks
                  (initial_world None) eq_refl)).
  reflexivity.
Defined.

Lemma run_commands_third_cannot_start :
  exists w',
    Ollama.run_ollama_commands third_command_cannot_start (initial_world None)
      = (Raise OSError, w')
    /\ executed (w_trace w')
       = [["ollama"; "list"]; ["ollama"; "run"; "mistral"];
          ["ollama"; "run"; "deepseek-coder"]].
Proof.
  destruct (run_commands_stops_at_first_exception third_command_cannot_start
              [["ollama"; "list"]; ["ollama"; "run"; "mistral"]]
              ["ollama"; "run"; "deepseek-coder"]
              [["ollama"; "run"; "llava"];
               ["ollama"; "run"; "wizard-vicuna-uncensored"]]
              (initial_world None) OSError) as (w' & E & Ht & _).
  - intros i Hi. destruct i as [|[|i]]; [reflexivity|reflexivity|cbn in Hi; lia].
  - reflexivity.
  - exists w'. split; [exact E|]. rewrite Ht. reflexivity.
Defined.

Lemma main_port_held_on_concrete_run :
  exists w' evs,
    Ollama.main port_held (initial_world None) = (Ret tt, w')
    /\ w_trace w'
       = (w_trace (snd (Ollama.stop_existing_ollama port_held (initial_world None)))
            ++ evs)%list
    /\ forallb no_launch evs = true
    /\ executed evs = [lsof_argv 11434]
    /\ last evs (EvSleep 0) = EvPrint LogSkipCommands.
Proof.
  apply (main_gives_up_when_port_stays_occupied port_held (initial_world None));
    reflexivity.
Defined.

